(** * myne / grim_reaper: a verification development

    Shallow embedding of the two daemons of the repository:

    - [Gr] embeds [gr.py], the dead-man-switch watchdog: sentinel check,
      fail-safe trigger, self-installation, uptime sampling and the main
      polling loop;
    - [Myne] embeds [myne.py], the worker supervisor: self-installation,
      resource planning, command construction, liveness check, kill-all and
      the main reconcile loop.

    [Py] holds what both need from the Python runtime: the exception
    classes the code distinguishes, a state-and-exception monad, and the
    string operations [in], [str.split], [int()] and [str()]. *)

From Stdlib Require Import ZArith List String Ascii Bool Lia.
From Stdlib Require Import DecimalString DecimalNat.
From stdpp Require Import base option gmap strings.

Import ListNotations.
Local Open Scope Z_scope.
Local Open Scope string_scope.
Local Open Scope list_scope.

(* ===================================================================== *)
(** * Python runtime                                                      *)
(* ===================================================================== *)

Module Py.

(** The exception classes the two programs raise, catch or let through.
    [KeyboardInterrupt] and [SystemExit] derive from [BaseException] only,
    so an [except Exception] clause does not catch them. *)
Inductive exn : Type :=
| FileNotFoundError
| OSError
| CalledProcessError
| TypeError
| ValueError
| GenericException (msg : string)
| KeyboardInterrupt
| SystemExit (code : Z).

Definition is_Exception (e : exn) : bool :=
  match e with
  | KeyboardInterrupt | SystemExit _ => false
  | _ => true
  end.

(** Result of running a piece of code: a value, a raised exception, or
    [Timeout] when the fuel given to a [while True] loop ran out (the loop
    would still be running). *)
Inductive res (A : Type) : Type :=
| Ret (a : A)
| Raise (e : exn)
| Timeout.
Arguments Ret {A} a.
Arguments Raise {A} e.
Arguments Timeout {A}.

Definition M (St A : Type) : Type := St -> res A * St.

Definition ret {St A} (a : A) : M St A := fun s => (Ret a, s).
Definition raise {St A} (e : exn) : M St A := fun s => (Raise e, s).
Definition timeout {St A} : M St A := fun s => (Timeout, s).

Definition bind {St A B} (m : M St A) (k : A -> M St B) : M St B :=
  fun s =>
    match m s with
    | (Ret a, s') => k a s'
    | (Raise e, s') => (Raise e, s')
    | (Timeout, s') => (Timeout, s')
    end.

Notation "'let!' x ':=' c 'in' k" := (bind c (fun x => k))
  (at level 10, x name, c at level 100, k at level 200,
   format "'[v' 'let!'  x  ':='  c  'in' '/' k ']'").
Notation "c1 ;> c2" := (bind c1 (fun _ => c2))
  (at level 100, c2 at level 200).

(** One [except <class>:] clause: the classes it catches and its body. *)
Definition clause (St A : Type) : Type := ((exn -> bool) * (exn -> M St A))%type.

Fixpoint dispatch {St A} (cs : list (clause St A)) (e : exn) : M St A :=
  match cs with
  | [] => raise e
  | (sel, h) :: cs' => if sel e then h e else dispatch cs' e
  end.

(** [try: m except C1: h1 except C2: h2 ...]: the first clause whose class
    matches runs; an exception raised by a handler is not caught by its
    sibling clauses; [Timeout] is no exception. *)
Definition try_except {St A} (m : M St A) (cs : list (clause St A)) : M St A :=
  fun s =>
    match m s with
    | (Raise e, s') => dispatch cs e s'
    | r => r
    end.

Definition except_Exception {St A} (h : exn -> M St A) : clause St A :=
  (is_Exception, h).

(** [for x in l: body x]. *)
Fixpoint for_each {St A} (l : list A) (body : A -> M St unit) : M St unit :=
  match l with
  | [] => ret tt
  | x :: l' => body x ;> for_each l' body
  end.

(** Severities of the [logging] module. *)
Inductive level : Type := DEBUG | INFO | WARNING | ERROR | CRITICAL.

(** What a path names: a regular file with its bytes, or something that
    exists but cannot be opened for reading (a directory, a file without
    permission). *)
Inductive node : Type :=
| File (data : string)
| Opaque.

(** [sys.exit(code)]. *)
Definition sys_exit {St A} (code : Z) : M St A := raise (SystemExit code).

(** Exit status of the interpreter for a finished run: the [SystemExit]
    code, 0 after a normal return, 130 after an uncaught
    [KeyboardInterrupt], 1 after any other uncaught exception (traceback);
    [None] while the program is still running. *)
Definition exit_status {A} (r : res A) : option Z :=
  match r with
  | Ret _ => Some 0
  | Raise (SystemExit c) => Some c
  | Raise KeyboardInterrupt => Some 130
  | Raise _ => Some 1
  | Timeout => None
  end.

(** ** Strings *)

(** [sub in s]. *)
Fixpoint contains (sub s : string) : bool :=
  String.prefix sub s ||
  match s with
  | EmptyString => false
  | String _ s' => contains sub s'
  end.

(** [s.split(sep)] for a non-empty separator: [split_go sep skip s] scans
    [s] left to right; [skip] counts the characters of a separator just
    matched that are still to be dropped. The result is never empty. *)
Fixpoint split_go (sep : string) (skip : nat) (s : string) : list string :=
  match s with
  | EmptyString => [EmptyString]
  | String c s' =>
      match skip with
      | S k => split_go sep k s'
      | O =>
          if String.prefix sep s
          then EmptyString :: split_go sep (Nat.pred (String.length sep)) s'
          else match split_go sep O s' with
               | w :: ws => String c w :: ws
               | [] => [String c EmptyString]
               end
      end
  end.

Definition split (sep s : string) : list string := split_go sep O s.

(** [l[0]] and [l[-1]] on the result of a split (never empty). *)
Definition first (l : list string) : string := List.hd EmptyString l.
Definition last (l : list string) : string := List.last l EmptyString.

(** ASCII whitespace, as [str.split()] and [int()] skip it. *)
Definition is_space (c : ascii) : bool :=
  match c with
  | " "%char | "009"%char | "010"%char | "011"%char | "012"%char
  | "013"%char => true
  | _ => false
  end.

Fixpoint lstrip (s : string) : string :=
  match s with
  | String c s' => if is_space c then lstrip s' else s
  | EmptyString => EmptyString
  end.

Fixpoint rstrip (s : string) : string :=
  match s with
  | EmptyString => EmptyString
  | String c s' =>
      match rstrip s' with
      | EmptyString => if is_space c then EmptyString else String c EmptyString
      | r => String c r
      end
  end.

Definition strip (s : string) : string := rstrip (lstrip s).

(** [s.split()] without a separator: the maximal runs of non-whitespace. *)
Fixpoint words (s : string) : list string :=
  match s with
  | EmptyString => []
  | String c s' =>
      if is_space c then words s'
      else match s' with
           | EmptyString => [String c EmptyString]
           | String c' _ =>
               if is_space c' then String c EmptyString :: words s'
               else match words s' with
                    | w :: ws => String c w :: ws
                    | [] => [String c EmptyString]
                    end
           end
  end.

Definition digit_of (c : ascii) : option Z :=
  let n := Z.of_nat (nat_of_ascii c) in
  if ((48 <=? n)%Z && (n <=? 57)%Z)%bool then Some (n - 48) else None.

Fixpoint parse_digits (acc : Z) (s : string) : option Z :=
  match s with
  | EmptyString => Some acc
  | String c s' =>
      match digit_of c with
      | Some d => parse_digits (10 * acc + d) s'
      | None => None
      end
  end.

Definition parse_nonempty (s : string) : option Z :=
  match s with
  | EmptyString => None
  | _ => parse_digits 0 s
  end.

(** [int(s)] on a string: surrounding whitespace is ignored, one optional
    sign, then one or more decimal digits; [None] stands for [ValueError].
    (Digit-group underscores, which [int] also accepts, are not modelled:
    such a literal is rejected here.) *)
Definition int (s : string) : option Z :=
  match strip s with
  | String "-"%char r => option_map Z.opp (parse_nonempty r)
  | String "+"%char r => parse_nonempty r
  | t => parse_nonempty t
  end.

(** [str(n)] for an integer, as an f-string renders it. *)
Definition str (z : Z) : string := NilZero.string_of_int (Z.to_int z).

(** [int(s)] as a statement: [ValueError] when the text is no integer. *)
Definition int_of {St} (s : string) : M St Z :=
  match int s with
  | Some z => ret z
  | None => raise ValueError
  end.

End Py.

(* ===================================================================== *)
(** * gr.py: the dead-man-switch watchdog                                 *)
(* ===================================================================== *)

Module Gr.
Import Py.

(** Outcome of [datetime.fromtimestamp(os.path.getmtime(path))]: the
    modification time (microseconds since the epoch, the resolution of
    [datetime]), [FileNotFoundError], or any other error. *)
Inductive mtime_read : Type :=
| Mtime (t : Z)
| Missing
| Unreadable.

(** Externally observable side effects, in the order they happen. *)
Inductive event : Type :=
| EvLog (l : level) (msg : string)
| EvSleep (secs : Z)
| EvSysrq (command : string)
| EvCopy (src dst : string)
| EvWrite (path : string)
| EvRun (argv : list string).

(** The host as the daemon finds it. Observations that change with time
    are indexed by a logical clock that every [time.sleep] advances. *)
Record env : Type := {
  script_path : string;                    (* os.path.realpath(__file__) *)
  sha256 : string -> string;               (* hashlib.sha256(_).hexdigest() *)
  can_write : string -> bool;              (* open(path, 'w') succeeds *)
  systemctl_found : bool;                  (* subprocess.run finds systemctl *)
  uptime_p : option string;                (* output of `uptime -p`, if it ran *)
  mtime_at : string -> nat -> mtime_read;
  now_at : nat -> Z;                       (* datetime.now(), microseconds *)
  sysrq_ok : bool                          (* /proc/sysrq-trigger can be written *)
}.

Record state : Type := {
  fs : gmap string node;
  clock : nat;
  trace : list event
}.

Definition target_path : string := "/usr/local/bin/grim_reaper.py".
Definition service_path : string := "/etc/systemd/system/grim_reaper.service".
Definition sentinel_path : string := "/root/.death_touch".

Definition service_content (target : string) : string :=
  "
        [Unit]
        Description=Grim Reaper Daemon

        [Service]
        ExecStart=/usr/bin/python3 " +:+ target +:+ "

        [Install]
        WantedBy=multi-user.target
        ".

Section WithEnv.
Variable E : env.

Definition emit (ev : event) : M state unit :=
  fun s => (Ret tt, {| fs := fs s; clock := clock s; trace := trace s ++ [ev] |}).

Definition log (l : level) (msg : string) : M state unit := emit (EvLog l msg).

(** [time.sleep(secs)]: time passes. *)
Definition time_sleep (secs : Z) : M state unit :=
  if (secs <? 0)%Z then raise ValueError
  else fun s =>
    (Ret tt, {| fs := fs s; clock := S (clock s);
                trace := trace s ++ [EvSleep secs] |}).

(** [open(path, 'rb').read()]. *)
Definition read_file (path : string) : M state string :=
  fun s =>
    match fs s !! path with
    | Some (File data) => (Ret data, s)
    | Some Opaque => (Raise OSError, s)
    | None => (Raise FileNotFoundError, s)
    end.

(** [open(path, 'w').write(data)]. *)
Definition write_file (path data : string) : M state unit :=
  fun s =>
    if can_write E path
    then (Ret tt, {| fs := <[path := File data]> (fs s); clock := clock s;
                     trace := trace s ++ [EvWrite path] |})
    else (Raise OSError, s).

Definition os_path_exists (path : string) : M state bool :=
  fun s => (Ret (bool_decide (is_Some (fs s !! path))), s).

(** [shutil.copy(src, dst)]. *)
Definition shutil_copy (src dst : string) : M state unit :=
  let! data := read_file src in
  fun s =>
    if can_write E dst
    then (Ret tt, {| fs := <[dst := File data]> (fs s); clock := clock s;
                     trace := trace s ++ [EvCopy src dst] |})
    else (Raise OSError, s).

(** [subprocess.run(argv)] without [check]: the exit status is ignored;
    only a missing executable raises. *)
Definition subprocess_run (argv : list string) : M state unit :=
  if systemctl_found E then emit (EvRun argv) else raise FileNotFoundError.

(** gr.py, lines 17-26. *)
Definition calculate_file_hash (file_path : string) : M state (option string) :=
  try_except
    (let! data := read_file file_path in
     ret (Some (sha256 E data)))
    [except_Exception (fun _ =>
       log ERROR "Error calculating file hash" ;>
       ret None)].

(** gr.py, lines 28-43. *)
Definition timedelta_hours (h : Z) : Z := h * 3600 * 1000000.

Definition getmtime_datetime (file_path : string) : M state Z :=
  fun s =>
    match mtime_at E file_path (clock s) with
    | Mtime t => (Ret t, s)
    | Missing => (Raise FileNotFoundError, s)
    | Unreadable => (Raise OSError, s)
    end.

Definition datetime_now : M state Z := fun s => (Ret (now_at E (clock s)), s).

Definition is_FileNotFoundError (e : exn) : bool :=
  match e with FileNotFoundError => true | _ => false end.

Definition check_file_modification (file_path : string) : M state bool :=
  try_except
    (let! last_modified_time := getmtime_datetime file_path in
     let! now := datetime_now in
     if (now - last_modified_time >? timedelta_hours 36)%Z
     then log DEBUG "File modification condition met." ;> ret true
     else ret false)
    [ (is_FileNotFoundError, fun _ =>
         log WARNING ("File not found: " +:+ file_path) ;> ret false);
      except_Exception (fun _ =>
         log ERROR "Error checking file modification" ;> ret false) ].

(** gr.py, lines 45-59. *)
Definition sysrq_write (command : string) : M state unit :=
  if sysrq_ok E then emit (EvSysrq command) else raise OSError.

Definition shutdown_system : M state unit :=
  try_except
    (for_each ["o"] (fun command =>
       sysrq_write command ;>
       log DEBUG ("Executed sysrq command: " +:+ command) ;>
       time_sleep 1))
    [except_Exception (fun _ => log ERROR "Error during system shutdown")].

(** gr.py, lines 74-81: is the script installed and up to date? *)
Definition up_to_date (current : string) : M state bool :=
  let! present := os_path_exists target_path in
  if present then
    let! installed_hash := calculate_file_hash target_path in
    match installed_hash with
    | None =>
        raise (GenericException "Failed to calculate installed script hash.")
    | Some installed => ret (String.eqb current installed)
    end
  else ret false.

(** gr.py, lines 83-108: copy, service file, service manager. *)
Definition perform_install : M state bool :=
  shutil_copy (script_path E) target_path ;>
  log DEBUG ("Script copied to " +:+ target_path) ;>
  write_file service_path (service_content target_path) ;>
  log DEBUG "Systemd service file created/updated." ;>
  subprocess_run ["systemctl"; "daemon-reload"] ;>
  subprocess_run ["systemctl"; "enable"; "grim_reaper.service"] ;>
  subprocess_run ["systemctl"; "start"; "grim_reaper.service"] ;>
  log DEBUG "Systemd service reloaded and restarted." ;>
  ret true.

(** gr.py, lines 66-108: the body of the [try]. *)
Definition install_body : M state bool :=
  let! current_hash := calculate_file_hash (script_path E) in
  match current_hash with
  | None => raise (GenericException "Failed to calculate current script hash.")
  | Some current =>
      let! current_installed := up_to_date current in
      if current_installed then
        log DEBUG "Script already installed and up to date." ;>
        ret false
      else perform_install
  end.

(** gr.py, lines 61-111. *)
Definition install_self : M state bool :=
  try_except install_body
    [except_Exception (fun _ =>
       log ERROR "Error during installation" ;> ret false)].

(** gr.py, lines 121-127: the arithmetic on the text of [uptime -p];
    [None] stands for the [ValueError] of [int]. *)
Definition parse_field (unit_name uptime_string : string) : option Z :=
  if contains unit_name uptime_string
  then int (last (split " " (first (split (" " +:+ unit_name) uptime_string))))
  else Some 0.

Definition parse_uptime (uptime_string : string) : option Z :=
  match parse_field "hour" uptime_string with
  | None => None
  | Some hours =>
      match parse_field "minute" uptime_string with
      | None => None
      | Some minutes => Some (hours * 3600 + minutes * 60)
      end
  end.

(** gr.py, lines 113-130. *)
Definition check_output_uptime : M state string :=
  match uptime_p E with
  | Some out => ret out
  | None => raise CalledProcessError
  end.

Definition get_system_uptime : M state (option Z) :=
  try_except
    (let! uptime_string := check_output_uptime in
     match parse_uptime uptime_string with
     | Some secs => ret (Some secs)
     | None => raise ValueError
     end)
    [except_Exception (fun _ =>
       log ERROR "Error in getting system uptime" ;> ret None)].

(** gr.py, lines 148-152: [while True], with fuel. *)
Fixpoint watch_loop (fuel : nat) : M state unit :=
  match fuel with
  | O => timeout
  | S fuel' =>
      let! triggered := check_file_modification sentinel_path in
      if triggered then shutdown_system
      else time_sleep 420 ;> watch_loop fuel'
  end.

(** gr.py, lines 139-145. *)
Definition warm_up : M state unit :=
  let! uptime := get_system_uptime in
  match uptime with
  | None => raise (GenericException "Failed to get system uptime.")
  | Some u =>
      if (u <? 1800)%Z then
        log INFO ("System uptime is less than 30 Minutes (" +:+ str u
                    +:+ " seconds). Delaying file check.") ;>
        time_sleep (1800 - u)
      else ret tt
  end.

(** gr.py, lines 132-154. *)
Definition main (fuel : nat) : M state unit :=
  try_except
    (let! installed := install_self in
     if installed then
       log INFO "Exiting after installation. Systemd will restart the script."
     else
       warm_up ;>
       watch_loop fuel)
    [except_Exception (fun _ => log CRITICAL "Fatal error in main loop")].

End WithEnv.

End Gr.

(* ===================================================================== *)
(** * myne.py: the worker supervisor                                      *)
(* ===================================================================== *)

Module Myne.
Import Py.

Definition DEFAULT_HOST : string := "kelsey-ai.local:3333".
Definition LOCAL_SCRIPT_PATH : string := "/usr/local/bin/myne.py".
Definition HOME_SCRIPT_PATH : string := "/home/kelsey/bin/myne.py".
Definition CPULIMIT_PATH : string := "/usr/bin/cpulimit".
Definition XMRIG_PATH : string := "/usr/local/bin/xmrig".
Definition PGREP_CMD : list string := ["pgrep"; "xmrig"].
Definition SLEEP_INTERVAL : Z := 60.
Definition CPU_LIMIT_THRESHOLD : Z := 8.
Definition CPU_LIMIT_LOW : Z := 40.
Definition service_path : string := "/etc/systemd/system/myne.service".

Definition service_content : string :=
  "
        [Unit]
        Description=Myne Daemon

        [Service]
        ExecStart=/usr/bin/python3 " +:+ LOCAL_SCRIPT_PATH +:+ "

        [Install]
        WantedBy=multi-user.target
        ".

(** myne.py, lines 119-128, on an integer core count. *)
Definition calculate_threads_and_limits (cpu_cores : Z) : Z * Z * Z :=
  if (cpu_cores >=? CPU_LIMIT_THRESHOLD)%Z
  then (cpu_cores - 2, 1, 1)
  else (cpu_cores - 1, 1, 0).

Definition main_command (main_threads : Z) : string :=
  XMRIG_PATH +:+ " -o " +:+ DEFAULT_HOST +:+ " --threads=" +:+ str main_threads
    +:+ " --cuda".
Definition limited_command : string :=
  CPULIMIT_PATH +:+ " -l " +:+ str CPU_LIMIT_LOW +:+ " -- " +:+ XMRIG_PATH
    +:+ " -o " +:+ DEFAULT_HOST +:+ " --threads=1".
Definition free_command : string :=
  XMRIG_PATH +:+ " -o " +:+ DEFAULT_HOST +:+ " --threads=1".

(** myne.py, lines 131-142. *)
Definition create_xmrig_commands (main_threads limited_threads free_threads : Z)
  : list string :=
  (if (main_threads >? 0)%Z then [main_command main_threads] else []) ++
  (if (limited_threads >? 0)%Z then [limited_command] else []) ++
  (if (free_threads >? 0)%Z then [free_command] else []).

(** What [subprocess.run(PGREP_CMD, stdout=PIPE)] comes back with. *)
Inductive pgrep_result : Type :=
| PgrepExit (returncode : Z) (stdout : string)
| PgrepMissing.                       (* no such executable *)

Inductive event : Type :=
| EvLog (l : level) (msg : string)
| EvCopy (src dst : string)
| EvWrite (path : string)
| EvRun (argv : list string)
| EvPgrep (returncode : Z)
| EvSpawn (command : string) (pid : Z)
| EvKill (pid : string) (ok : bool)
| EvSleep (secs : Z).

(** The host as the supervisor finds it. Every call that looks at, or
    acts on, the process table or the clock happens at its own instant of
    a logical clock; the answers are indexed by that instant. *)
Record env : Type := {
  script_path : string;                 (* SCRIPT_PATH *)
  sha256 : string -> string;
  can_write : string -> bool;
  systemctl_found : bool;
  cpu_count : option Z;                 (* os.cpu_count() *)
  pgrep_at : nat -> pgrep_result;
  popen_at : nat -> option Z;           (* pid of the shell, or OSError *)
  kill_at : nat -> string -> bool;      (* `kill -9 pid` exits with 0 *)
  interrupt_at : nat -> bool            (* the sleep is interrupted *)
}.

Record state : Type := {
  fs : gmap string node;
  clock : nat;
  trace : list event
}.

Section WithEnv.
Variable E : env.

Definition emit (ev : event) : M state unit :=
  fun s => (Ret tt, {| fs := fs s; clock := clock s; trace := trace s ++ [ev] |}).

Definition log (l : level) (msg : string) : M state unit := emit (EvLog l msg).

(** The instant of the next external call; the clock moves on. *)
Definition tick : M state nat :=
  fun s => (Ret (clock s), {| fs := fs s; clock := S (clock s); trace := trace s |}).

(** myne.py, lines 39-55. The arguments and the result, which the source
    interpolates into the messages, are left out of them. *)
Definition log_decorator {A} (name : string) (func : M state A) : M state A :=
  log DEBUG ("Calling function " +:+ name) ;>
  try_except
    (let! result := func in
     log DEBUG ("Function " +:+ name +:+ " returned") ;>
     ret result)
    [except_Exception (fun e =>
       log ERROR ("Function " +:+ name +:+ " raised an exception") ;>
       raise e)].

Definition read_file (path : string) : M state string :=
  fun s =>
    match fs s !! path with
    | Some (File data) => (Ret data, s)
    | Some Opaque => (Raise OSError, s)
    | None => (Raise FileNotFoundError, s)
    end.

Definition write_file (path data : string) : M state unit :=
  fun s =>
    if can_write E path
    then (Ret tt, {| fs := <[path := File data]> (fs s); clock := clock s;
                     trace := trace s ++ [EvWrite path] |})
    else (Raise OSError, s).

Definition os_path_exists (path : string) : M state bool :=
  fun s => (Ret (bool_decide (is_Some (fs s !! path))), s).

(** [subprocess.run(["cp", src, dst], check=True)]. *)
Definition run_cp (src dst : string) : M state unit :=
  fun s =>
    match fs s !! src with
    | Some (File data) =>
        if can_write E dst
        then (Ret tt, {| fs := <[dst := File data]> (fs s); clock := clock s;
                         trace := trace s ++ [EvCopy src dst] |})
        else (Raise CalledProcessError, s)
    | _ => (Raise CalledProcessError, s)
    end.

(** [subprocess.run(["systemctl", ...])] without [check]. *)
Definition run_systemctl (argv : list string) : M state unit :=
  if systemctl_found E then emit (EvRun argv) else raise FileNotFoundError.

(** myne.py, lines 58-64. *)
Definition calculate_file_hash (file_path : string) : M state string :=
  log_decorator "calculate_file_hash"
    (let! data := read_file file_path in
     ret (sha256 E data)).

(** myne.py, lines 73-79: is the script installed and up to date? The
    hash is a [str], never [None], so the [is None] tests of the source
    cannot fire. *)
Definition up_to_date (current_hash : string) : M state bool :=
  let! present := os_path_exists LOCAL_SCRIPT_PATH in
  if present then
    let! installed_hash := calculate_file_hash LOCAL_SCRIPT_PATH in
    ret (String.eqb current_hash installed_hash)
  else ret false.

(** myne.py, lines 80-100: copy, service file, service manager. *)
Definition perform_install : M state bool :=
  run_cp (script_path E) LOCAL_SCRIPT_PATH ;>
  log DEBUG ("Script copied to " +:+ LOCAL_SCRIPT_PATH) ;>
  write_file service_path service_content ;>
  log DEBUG "Systemd service file created/updated." ;>
  run_systemctl ["systemctl"; "daemon-reload"] ;>
  run_systemctl ["systemctl"; "enable"; "myne.service"] ;>
  run_systemctl ["systemctl"; "restart"; "myne.service"] ;>
  log DEBUG "Systemd service reloaded and restarted." ;>
  ret true.

(** myne.py, lines 70-100: the body of the [try]. *)
Definition install_body : M state bool :=
  let! current_hash := calculate_file_hash (script_path E) in
  let! current_installed := up_to_date current_hash in
  if current_installed then
    log DEBUG "Script already installed and up to date." ;>
    ret false
  else perform_install.

(** myne.py, lines 67-103. *)
Definition install_self : M state bool :=
  log_decorator "install_self"
    (try_except install_body
       [except_Exception (fun _ =>
          log ERROR "Error during installation" ;> ret false)]).

(** [subprocess.run(["systemctl", ...], check=True)]: a non-zero exit
    status raises. The status is the caller's to give: [restart_ok] says
    that the command exits with 0. *)
Definition run_systemctl_checked (restart_ok : bool) (argv : list string)
  : M state unit :=
  if systemctl_found E then
    emit (EvRun argv) ;>
    if restart_ok then ret tt else raise CalledProcessError
  else raise FileNotFoundError.

(** myne.py, lines 106-110. *)
Definition reinstall_self (restart_ok : bool) : M state bool :=
  log_decorator "reinstall_self"
    (run_cp HOME_SCRIPT_PATH LOCAL_SCRIPT_PATH ;>
     run_systemctl_checked restart_ok ["systemctl"; "restart"; "myne.service"] ;>
     ret true).

(** myne.py, lines 113-115. *)
Definition get_cpu_cores : M state (option Z) :=
  log_decorator "get_cpu_cores" (ret (cpu_count E)).

(** The call of line 177: comparing [None] with an integer is a
    [TypeError]. *)
Definition plan_call (cpu_cores : option Z) : M state (Z * Z * Z) :=
  log_decorator "calculate_threads_and_limits"
    match cpu_cores with
    | Some n => ret (calculate_threads_and_limits n)
    | None => raise TypeError
    end.

Definition commands_call (plan : Z * Z * Z) : M state (list string) :=
  log_decorator "create_xmrig_commands"
    (let '(main_threads, limited_threads, free_threads) := plan in
     ret (create_xmrig_commands main_threads limited_threads free_threads)).

Definition run_pgrep : M state (Z * string) :=
  let! now := tick in
  match pgrep_at E now with
  | PgrepExit returncode stdout =>
      emit (EvPgrep returncode) ;> ret (returncode, stdout)
  | PgrepMissing => raise FileNotFoundError
  end.

(** myne.py, lines 145-148. *)
Definition check_xmrig_running : M state bool :=
  log_decorator "check_xmrig_running"
    (let! result := run_pgrep in
     ret (fst result =? 0)%Z).

(** [subprocess.run(["kill", "-9", pid], check=True)]. *)
Definition run_kill (pid : string) : M state unit :=
  let! now := tick in
  let ok := kill_at E now pid in
  emit (EvKill pid ok) ;>
  if ok then ret tt else raise CalledProcessError.

(** myne.py, lines 151-158. *)
Definition kill_xmrig : M state unit :=
  log_decorator "kill_xmrig"
    (let! result := run_pgrep in
     if (fst result =? 0)%Z then
       for_each (words (snd result)) (fun pid =>
         run_kill pid ;>
         log INFO ("Killed xmrig process with PID: " +:+ pid))
     else ret tt).

(** myne.py, lines 161-164. *)
Definition run_xmrig_command (command : string) : M state Z :=
  log_decorator "run_xmrig_command"
    (let! now := tick in
     match popen_at E now with
     | Some pid => emit (EvSpawn command pid) ;> ret pid
     | None => raise OSError
     end).

(** [await asyncio.sleep(secs)]; an interrupt surfaces here as
    [KeyboardInterrupt], which is where the source expects it. *)
Definition asyncio_sleep (secs : Z) : M state unit :=
  let! now := tick in
  emit (EvSleep secs) ;>
  if interrupt_at E now then raise KeyboardInterrupt else ret tt.

Definition is_KeyboardInterrupt (e : exn) : bool :=
  match e with KeyboardInterrupt => true | _ => false end.

(** myne.py, lines 185-191: spawn every command, verify after each. *)
Definition spawn_all (commands : list string) : M state unit :=
  for_each commands (fun command =>
    let! pid := run_xmrig_command command in
    log INFO "Started xmrig with PID" ;>
    let! running := check_xmrig_running in
    if negb running
    then log ERROR "xmrig failed to start or is not running, retrying..."
    else ret tt).

(** myne.py, lines 181-193: one reconcile. *)
Definition reconcile (commands : list string) : M state unit :=
  let! running := check_xmrig_running in
  if negb running then
    log INFO "xmrig is not running, attempting to start..." ;>
    spawn_all commands
  else log INFO "xmrig is running.".

(** myne.py, lines 194-199. *)
Definition interruptible_sleep : M state unit :=
  try_except (asyncio_sleep SLEEP_INTERVAL)
    [ (is_KeyboardInterrupt, fun _ =>
         log INFO "KeyboardInterrupt received, stopping..." ;>
         kill_xmrig ;>
         sys_exit 0) ].

(** myne.py, lines 180-199: [while True], with fuel. *)
Fixpoint supervise (fuel : nat) (commands : list string) : M state unit :=
  match fuel with
  | O => timeout
  | S fuel' =>
      reconcile commands ;>
      interruptible_sleep ;>
      supervise fuel' commands
  end.

(** myne.py, lines 170-178: install or plan. *)
Definition prepare : M state (list string) :=
  let! installed := install_self in
  if installed then
    log INFO "Exiting after installation. Please restart the script manually." ;>
    sys_exit 0
  else
    let! cpu_cores := get_cpu_cores in
    let! plan := plan_call cpu_cores in
    commands_call plan.

(** myne.py, lines 170-199: the body of the outer [try]. *)
Definition main_body (fuel : nat) : M state unit :=
  let! commands := prepare in
  supervise fuel commands.

(** myne.py, lines 200-203. *)
Definition on_error : M state unit :=
  log ERROR "An error occurred in main" ;>
  kill_xmrig ;>
  sys_exit 1.

(** myne.py, lines 167-203. *)
Definition main (fuel : nat) : M state unit :=
  log_decorator "main"
    (try_except (main_body fuel) [except_Exception (fun _ => on_error)]).

End WithEnv.

End Myne.

(* ===================================================================== *)
(** * Vocabulary of the properties                                        *)
(* ===================================================================== *)

(** Threads a plan hands out, all roles together. *)
Definition allocated (plan : Z * Z * Z) : Z :=
  let '(main_threads, limited_threads, free_threads) := plan in
  main_threads + limited_threads + free_threads.

(** The sentinel is stale at instant [k]: its modification time can be
    read and lies more than 36 hours before [now]. *)
Definition stale (E : Gr.env) (path : string) (k : nat) : Prop :=
  exists t, Gr.mtime_at E path k = Gr.Mtime t /\
            (Gr.now_at E k - t > 36 * 3600 * 1000000)%Z.

(** [member x l]: the command [x] is one of [l]. *)
Definition member (x : string) (l : list string) : bool :=
  existsb (String.eqb x) l.

(** What the sentinel check answers at instant [k], and what it logs. *)
Definition triggered (E : Gr.env) (k : nat) : bool :=
  match Gr.mtime_at E Gr.sentinel_path k with
  | Gr.Mtime t => (Gr.now_at E k - t >? Gr.timedelta_hours 36)%Z
  | _ => false
  end.

Definition check_events (E : Gr.env) (k : nat) : list Gr.event :=
  match Gr.mtime_at E Gr.sentinel_path k with
  | Gr.Mtime t =>
      if (Gr.now_at E k - t >? Gr.timedelta_hours 36)%Z
      then [Gr.EvLog Py.DEBUG "File modification condition met."]
      else []
  | Gr.Missing =>
      [Gr.EvLog Py.WARNING ("File not found: " +:+ Gr.sentinel_path)]
  | Gr.Unreadable =>
      [Gr.EvLog Py.ERROR "Error checking file modification"]
  end.

(** The sentinel check is negative at the [n] instants from [k] on. *)
Fixpoint quiet (E : Gr.env) (k n : nat) : bool :=
  match n with
  | O => true
  | S n' => negb (triggered E k) && quiet E (S k) n'
  end.

(** Events of [n] polls, from instant [k] on, each followed by its
    420-second sleep. *)
Fixpoint quiet_ticks (E : Gr.env) (k n : nat) : list Gr.event :=
  match n with
  | O => []
  | S n' => check_events E k ++ [Gr.EvSleep 420] ++ quiet_ticks E (S k) n'
  end.

(** Events of one run of the fail-safe. *)
Definition shutdown_events (E : Gr.env) : list Gr.event :=
  if Gr.sysrq_ok E
  then [Gr.EvSysrq "o"; Gr.EvLog Py.DEBUG "Executed sysrq command: o";
        Gr.EvSleep 1]
  else [Gr.EvLog Py.ERROR "Error during system shutdown"].

(** An event that one run of the fail-safe leaves exactly once: the
    write to the control interface, or the report that it failed. *)
Definition failsafe_mark (ev : Gr.event) : bool :=
  match ev with
  | Gr.EvSysrq _ => true
  | Gr.EvLog Py.ERROR msg => String.eqb msg "Error during system shutdown"
  | _ => false
  end.

Definition failsafe_runs (tr : list Gr.event) : nat :=
  List.length (List.filter failsafe_mark tr).

(** Events of the warm-up for an uptime sample of [u] seconds. *)
Definition warm_up_events (u : Z) : list Gr.event :=
  if (u <? 1800)%Z
  then [Gr.EvLog Py.INFO
          ("System uptime is less than 30 Minutes (" +:+ Py.str u
             +:+ " seconds). Delaying file check.");
        Gr.EvSleep (1800 - u)]
  else [].

Definition sysrq_writes (tr : list Gr.event) : list string :=
  flat_map (fun ev => match ev with Gr.EvSysrq c => [c] | _ => [] end) tr.

(** [yields ok m]: from every state, [m] ends with a value that
    satisfies [ok] or with an exception of class [Exception]; it neither
    runs on for ever nor lets a [BaseException] through. *)
Definition yields {St A : Type} (ok : A -> bool) (m : Py.M St A) : Prop :=
  forall s : St,
    match fst (m s) with
    | Py.Ret a => ok a = true
    | Py.Raise e => Py.is_Exception e = true
    | Py.Timeout => False
    end.

Definition any {A : Type} (_ : A) : bool := true.

(** A state with more events in its trace, all else equal. *)
Definition gr_extend (s : Gr.state) (evs : list Gr.event) : Gr.state :=
  {| Gr.fs := Gr.fs s; Gr.clock := Gr.clock s; Gr.trace := Gr.trace s ++ evs |}.

Definition myne_extend (s : Myne.state) (evs : list Myne.event) : Myne.state :=
  {| Myne.fs := Myne.fs s; Myne.clock := Myne.clock s;
     Myne.trace := Myne.trace s ++ evs |}.

Definition myne_advance (s : Myne.state) (n : nat) (evs : list Myne.event)
  : Myne.state :=
  {| Myne.fs := Myne.fs s; Myne.clock := (n + Myne.clock s)%nat;
     Myne.trace := Myne.trace s ++ evs |}.

(** The records the decorator of myne.py leaves around a call. *)
Definition calling (name : string) : Myne.event :=
  Myne.EvLog Py.DEBUG ("Calling function " +:+ name).
Definition returned (name : string) : Myne.event :=
  Myne.EvLog Py.DEBUG ("Function " +:+ name +:+ " returned").
Definition raised (name : string) : Myne.event :=
  Myne.EvLog Py.ERROR ("Function " +:+ name +:+ " raised an exception").

Definition already_installed : Myne.event :=
  Myne.EvLog Py.DEBUG "Script already installed and up to date.".
Definition installation_error : Myne.event :=
  Myne.EvLog Py.ERROR "Error during installation".

(** What the process table answers at instant [k]. *)
Definition pgrep_code (E : Myne.env) (k : nat) : Z :=
  match Myne.pgrep_at E k with
  | Myne.PgrepExit returncode _ => returncode
  | Myne.PgrepMissing => 1
  end.

Definition pgrep_stdout (E : Myne.env) (k : nat) : string :=
  match Myne.pgrep_at E k with
  | Myne.PgrepExit _ stdout => stdout
  | Myne.PgrepMissing => ""
  end.

Definition running_at (E : Myne.env) (k : nat) : bool :=
  (pgrep_code E k =? 0)%Z.

Definition popen_pid (E : Myne.env) (k : nat) : Z :=
  match Myne.popen_at E k with Some pid => pid | None => 0 end.

(** The tools the supervisor shells out to are there: [pgrep] can be
    run, and a shell can be started. *)
Definition pgrep_present (E : Myne.env) : Prop :=
  forall k, Myne.pgrep_at E k <> Myne.PgrepMissing.

Definition popen_works (E : Myne.env) : Prop :=
  forall k, Myne.popen_at E k <> None.

(** Events of one liveness check at instant [k]. *)
Definition liveness_events (E : Myne.env) (k : nat) : list Myne.event :=
  [calling "check_xmrig_running"; Myne.EvPgrep (pgrep_code E k);
   returned "check_xmrig_running"].

Definition verification_failed : Myne.event :=
  Myne.EvLog Py.ERROR "xmrig failed to start or is not running, retrying...".

(** Events of spawning [commands] from instant [k] on: each spawn takes
    one instant, the verification after it the next. *)
Fixpoint spawn_events (E : Myne.env) (k : nat) (commands : list string)
  : list Myne.event :=
  match commands with
  | [] => []
  | command :: rest =>
      [calling "run_xmrig_command"; Myne.EvSpawn command (popen_pid E k);
       returned "run_xmrig_command";
       Myne.EvLog Py.INFO "Started xmrig with PID"]
      ++ liveness_events E (S k)
      ++ (if running_at E (S k) then [] else [verification_failed])
      ++ spawn_events E (S (S k)) rest
  end.

(** What a trace shows: commands spawned, queries of the process table,
    verifications reported as failed, pids a kill was sent to. *)
Definition spawned (tr : list Myne.event) : list string :=
  flat_map (fun ev => match ev with Myne.EvSpawn c _ => [c] | _ => [] end) tr.

Definition pgrep_queries (tr : list Myne.event) : nat :=
  List.length
    (List.filter (fun ev => match ev with Myne.EvPgrep _ => true | _ => false end)
       tr).

Definition is_verification_failed (ev : Myne.event) : bool :=
  match ev with
  | Myne.EvLog Py.ERROR msg =>
      String.eqb msg "xmrig failed to start or is not running, retrying..."
  | _ => false
  end.

Definition failures_reported (tr : list Myne.event) : nat :=
  List.length (List.filter is_verification_failed tr).

(** Verifications that find nothing running, among the [n] made at the
    instants [k + 1], [k + 3], ... *)
Fixpoint failed_verifications (E : Myne.env) (k n : nat) : nat :=
  match n with
  | O => O
  | S n' =>
      ((if running_at E (S k) then 0 else 1)
       + failed_verifications E (S (S k)) n')%nat
  end.

(** Killing [pids] one by one from instant [k] on: do all the kill
    commands succeed, and what they leave in the trace when they do. *)
Fixpoint kills_succeed (E : Myne.env) (k : nat) (pids : list string) : bool :=
  match pids with
  | [] => true
  | pid :: rest => Myne.kill_at E k pid && kills_succeed E (S k) rest
  end.

Definition kill_events (pids : list string) : list Myne.event :=
  flat_map (fun pid =>
    [Myne.EvKill pid true;
     Myne.EvLog Py.INFO ("Killed xmrig process with PID: " +:+ pid)]) pids.

Definition killed (tr : list Myne.event) : list string :=
  flat_map (fun ev => match ev with
                      | Myne.EvKill pid true => [pid]
                      | _ => []
                      end) tr.

Definition interrupted : list Myne.event :=
  [Myne.EvSleep Myne.SLEEP_INTERVAL;
   Myne.EvLog Py.INFO "KeyboardInterrupt received, stopping..."].

Definition error_in_main : Myne.event :=
  Myne.EvLog Py.ERROR "An error occurred in main".

Definition positive_roles (plan : Z * Z * Z) : nat :=
  let '(main_threads, limited_threads, free_threads) := plan in
  ((if (main_threads >? 0)%Z then 1 else 0)
   + (if (limited_threads >? 0)%Z then 1 else 0)
   + (if (free_threads >? 0)%Z then 1 else 0))%nat.

(** [lacks x s]: the character [x] does not occur in [s]. *)
Fixpoint lacks (x : ascii) (s : string) : bool :=
  match s with
  | EmptyString => true
  | String c s' => negb (Ascii.eqb c x) && lacks x s'
  end.

(** The text of [uptime -p] (procps), for a host that has been up for
    less than a year: the word [up], then the non-zero components among
    weeks, days, hours and minutes, each a decimal count and its unit
    (plural unless the count is 1), separated by a comma and a space; a
    newline ends the line. The source's own example is
    [up 2 hours, 15 minutes]. *)
Definition dec (n : nat) : string := NilZero.string_of_uint (Nat.to_uint n).

Definition component (n : nat) (unit_name : string) : list string :=
  if (n =? 0)%nat then []
  else [dec n +:+ " " +:+ unit_name +:+ (if (n =? 1)%nat then "" else "s")].

Definition newline : string := String "010"%char EmptyString.

Definition uptime_pretty (weeks days hours minutes : nat) : string :=
  "up " +:+
  String.concat ", "
    (component weeks "week" ++ component days "day" ++
     component hours "hour" ++ component minutes "minute")
  +:+ newline.

(** ** Sample hosts *)

Definition sample_code : string := "#!/usr/bin/env python3".

(** A host whose sentinel was last touched at the epoch; the clock reads
    36 hours less 10 minutes at instant 0 and moves 420 seconds an
    instant. The digest is a stand-in (the identity). *)
Definition gr_host : Gr.env :=
  {| Gr.script_path := "/home/user/gr.py";
     Gr.sha256 := fun data => data;
     Gr.can_write := fun _ => true;
     Gr.systemctl_found := true;
     Gr.uptime_p := Some ("up 10 minutes" +:+ newline);
     Gr.mtime_at := fun _ _ => Gr.Mtime 0;
     Gr.now_at := fun k => ((36 * 3600 - 600 + 420 * Z.of_nat k) * 1000000)%Z;
     Gr.sysrq_ok := true |}.

(** A host that answers the sentinel check with [m] while the clock
    reads [now] microseconds. *)
Definition gr_host_at (m : Gr.mtime_read) (now : Z) : Gr.env :=
  {| Gr.script_path := "/home/user/gr.py";
     Gr.sha256 := fun data => data;
     Gr.can_write := fun _ => true;
     Gr.systemctl_found := true;
     Gr.uptime_p := Some ("up 2 hours, 15 minutes" +:+ newline);
     Gr.mtime_at := fun _ _ => m;
     Gr.now_at := fun _ => now;
     Gr.sysrq_ok := true |}.

(** The same host, one day and five minutes after boot. *)
Definition gr_host_next_day : Gr.env :=
  {| Gr.script_path := Gr.script_path gr_host;
     Gr.sha256 := Gr.sha256 gr_host;
     Gr.can_write := Gr.can_write gr_host;
     Gr.systemctl_found := Gr.systemctl_found gr_host;
     Gr.uptime_p := Some (uptime_pretty 0 1 0 5);
     Gr.mtime_at := Gr.mtime_at gr_host;
     Gr.now_at := Gr.now_at gr_host;
     Gr.sysrq_ok := Gr.sysrq_ok gr_host |}.

(** Installed and current; nothing on disk at all. *)
Definition gr_installed : Gr.state :=
  {| Gr.fs := {[ "/home/user/gr.py" := Py.File sample_code;
                 Gr.target_path := Py.File sample_code ]};
     Gr.clock := 0; Gr.trace := [] |}.

Definition gr_bare : Gr.state :=
  {| Gr.fs := ∅; Gr.clock := 0; Gr.trace := [] |}.

Definition myne_host : Myne.env :=
  {| Myne.script_path := "/home/kelsey/bin/myne.py";
     Myne.sha256 := fun data => data;
     Myne.can_write := fun _ => true;
     Myne.systemctl_found := true;
     Myne.cpu_count := Some 4%Z;
     Myne.pgrep_at := fun _ => Myne.PgrepExit 1 "";
     Myne.popen_at := fun k => Some (1000 + Z.of_nat k)%Z;
     Myne.kill_at := fun _ _ => true;
     Myne.interrupt_at := fun _ => false |}.



Definition myne_installed : Myne.state :=
  {| Myne.fs := {[ "/home/kelsey/bin/myne.py" := Py.File sample_code;
                   Myne.LOCAL_SCRIPT_PATH := Py.File sample_code ]};
     Myne.clock := 0; Myne.trace := [] |}.

Definition myne_bare : Myne.state :=
  {| Myne.fs := ∅; Myne.clock := 0; Myne.trace := [] |}.

(** ** Further sample hosts *)

(** Only the running script on disk. *)
Definition gr_fresh : Gr.state :=
  {| Gr.fs := {[ "/home/user/gr.py" := Py.File sample_code ]};
     Gr.clock := 0; Gr.trace := [] |}.

Definition myne_fresh : Myne.state :=
  {| Myne.fs := {[ "/home/kelsey/bin/myne.py" := Py.File sample_code ]};
     Myne.clock := 0; Myne.trace := [] |}.

(** [gr_host] where only the target can be written, and where the uptime
    command fails. *)
Definition gr_host_no_service : Gr.env :=
  {| Gr.script_path := Gr.script_path gr_host;
     Gr.sha256 := Gr.sha256 gr_host;
     Gr.can_write := fun path => String.eqb path Gr.target_path;
     Gr.systemctl_found := true;
     Gr.uptime_p := Gr.uptime_p gr_host;
     Gr.mtime_at := Gr.mtime_at gr_host;
     Gr.now_at := Gr.now_at gr_host;
     Gr.sysrq_ok := true |}.

Definition gr_host_no_uptime : Gr.env :=
  {| Gr.script_path := Gr.script_path gr_host;
     Gr.sha256 := Gr.sha256 gr_host;
     Gr.can_write := Gr.can_write gr_host;
     Gr.systemctl_found := true;
     Gr.uptime_p := None;
     Gr.mtime_at := Gr.mtime_at gr_host;
     Gr.now_at := Gr.now_at gr_host;
     Gr.sysrq_ok := true |}.

(** Variations of [myne_host]: what the tools answer. *)
Definition myne_host_with
    (can_write : string -> bool) (cpu_count : option Z)
    (pgrep : nat -> Myne.pgrep_result) (popen : nat -> option Z)
    (kill : nat -> string -> bool) (interrupt : nat -> bool) : Myne.env :=
  {| Myne.script_path := Myne.script_path myne_host;
     Myne.sha256 := Myne.sha256 myne_host;
     Myne.can_write := can_write;
     Myne.systemctl_found := true;
     Myne.cpu_count := cpu_count;
     Myne.pgrep_at := pgrep;
     Myne.popen_at := popen;
     Myne.kill_at := kill;
     Myne.interrupt_at := interrupt |}.

Definition myne_host_no_service : Myne.env :=
  myne_host_with (fun path => String.eqb path Myne.LOCAL_SCRIPT_PATH) (Some 4%Z)
    (fun _ => Myne.PgrepExit 1 "") (fun k => Some (1000 + Z.of_nat k)%Z)
    (fun _ _ => true) (fun _ => false).

Definition myne_host_running : Myne.env :=
  myne_host_with (fun _ => true) (Some 4%Z)
    (fun _ => Myne.PgrepExit 0 ("4242" +:+ newline))
    (fun k => Some (1000 + Z.of_nat k)%Z) (fun _ _ => true) (fun _ => false).

Definition myne_host_three_workers : Myne.env :=
  myne_host_with (fun _ => true) (Some 4%Z)
    (fun _ => Myne.PgrepExit 0 ("11 22 33" +:+ newline))
    (fun k => Some (1000 + Z.of_nat k)%Z)
    (fun _ pid => negb (String.eqb pid "22")) (fun _ => false).


Definition myne_host_no_pgrep : Myne.env :=
  myne_host_with (fun _ => true) (Some 4%Z)
    (fun _ => Myne.PgrepMissing) (fun k => Some (1000 + Z.of_nat k)%Z)
    (fun _ _ => true) (fun _ => false).


(** ** Further vocabulary *)

(** The target is absent, or a readable file whose hash differs from
    that of the running script. *)
Definition gr_outdated (E : Gr.env) (s : Gr.state) (own : string) : Prop :=
  Gr.fs s !! Gr.target_path = None \/
  exists installed,
    Gr.fs s !! Gr.target_path = Some (Py.File installed) /\
    Gr.sha256 E own <> Gr.sha256 E installed.

Definition myne_outdated (E : Myne.env) (s : Myne.state) (own : string) : Prop :=
  Myne.fs s !! Myne.LOCAL_SCRIPT_PATH = None \/
  exists installed,
    Myne.fs s !! Myne.LOCAL_SCRIPT_PATH = Some (Py.File installed) /\
    Myne.sha256 E own <> Myne.sha256 E installed.

(** Events of a complete installation by gr.py. *)
Definition gr_install_events (E : Gr.env) : list Gr.event :=
  [Gr.EvCopy (Gr.script_path E) Gr.target_path;
   Gr.EvLog Py.DEBUG ("Script copied to " +:+ Gr.target_path);
   Gr.EvWrite Gr.service_path;
   Gr.EvLog Py.DEBUG "Systemd service file created/updated.";
   Gr.EvRun ["systemctl"; "daemon-reload"];
   Gr.EvRun ["systemctl"; "enable"; "grim_reaper.service"];
   Gr.EvRun ["systemctl"; "start"; "grim_reaper.service"];
   Gr.EvLog Py.DEBUG "Systemd service reloaded and restarted."].

(** [keeps obs m]: running [m] leaves the observation [obs] of the state
    as it was, however [m] ends. *)
Definition keeps {St A X : Type} (obs : St -> X) (m : Py.M St A) : Prop :=
  forall s : St, obs (snd (m s)) = obs s.


(** Events of [n] ticks, from instant [k] on, that find a worker running:
    the liveness check, its record, the sleep. *)
Fixpoint idle_ticks (E : Myne.env) (k n : nat) : list Myne.event :=
  match n with
  | O => []
  | S n' =>
      liveness_events E k
      ++ [Myne.EvLog Py.INFO "xmrig is running.";
          Myne.EvSleep Myne.SLEEP_INTERVAL]
      ++ idle_ticks E (S (S k)) n'
  end.

(** Events of a complete installation by myne.py. *)
Definition myne_install_events (E : Myne.env) : list Myne.event :=
  [Myne.EvCopy (Myne.script_path E) Myne.LOCAL_SCRIPT_PATH;
   Myne.EvLog Py.DEBUG ("Script copied to " +:+ Myne.LOCAL_SCRIPT_PATH);
   Myne.EvWrite Myne.service_path;
   Myne.EvLog Py.DEBUG "Systemd service file created/updated.";
   Myne.EvRun ["systemctl"; "daemon-reload"];
   Myne.EvRun ["systemctl"; "enable"; "myne.service"];
   Myne.EvRun ["systemctl"; "restart"; "myne.service"];
   Myne.EvLog Py.DEBUG "Systemd service reloaded and restarted."].

Definition hashed : list Myne.event :=
  [calling "calculate_file_hash"; returned "calculate_file_hash"].

(** Seconds the watchdog asked to sleep, all sleeps of a trace together. *)
Definition slept (tr : list Gr.event) : Z :=
  fold_right
    (fun ev acc => match ev with Gr.EvSleep secs => (secs + acc)%Z | _ => acc end)
    0%Z tr.

(* ===================================================================== *)
(** * Sequencing and handlers                                             *)
(* ===================================================================== *)

Section MonadFacts.
Import Py.
Context {St : Type}.


Lemma bind_run {A B} (m : M St A) (k : A -> M St B) s a s1 :
  m s = (Ret a, s1) -> bind m k s = k a s1.
Proof. unfold bind. now intros ->. Qed.

Lemma bind_raise {A B} (m : M St A) (k : A -> M St B) s e s1 :
  m s = (Raise e, s1) -> bind m k s = (Raise e, s1).
Proof. unfold bind. now intros ->. Qed.

Lemma yields_ret {A} (ok : A -> bool) (a : A) :
  ok a = true -> yields (St := St) ok (ret a).
Proof. intros H s. exact H. Qed.

Lemma yields_raise {A} (ok : A -> bool) (e : exn) :
  is_Exception e = true -> yields (St := St) ok (raise e).
Proof. intros H s. exact H. Qed.

Lemma yields_bind {A B} (ok : B -> bool) (m : M St A) (k : A -> M St B) :
  yields any m -> (forall a, yields ok (k a)) -> yields ok (bind m k).
Proof.
  intros Hm Hk s. specialize (Hm s). unfold bind.
  destruct (m s) as [[a|e|] s1]; cbn in *; [apply Hk | exact Hm | exact Hm].
Qed.

Lemma yields_any {A} (ok : A -> bool) (m : M St A) :
  yields ok m -> yields any m.
Proof.
  intros Hm s. specialize (Hm s). destruct (fst (m s)); [reflexivity | auto ..].
Qed.


(** A computation that yields cannot be observed to do anything else. *)
Lemma yields_for_each {A} (l : list A) (body : A -> M St unit) :
  (forall x, yields any (body x)) -> yields any (for_each l body).
Proof.
  intros Hb. induction l as [|x l IH]; [now apply yields_ret |].
  cbn [for_each]. apply yields_bind; [apply Hb | intros _; exact IH].
Qed.


Lemma yields_exception {A} (ok : A -> bool) (m : M St A) s e s1 :
  yields ok m -> m s = (Raise e, s1) -> is_Exception e = true.
Proof. intros Hm Hs. specialize (Hm s). now rewrite Hs in Hm. Qed.


End MonadFacts.

(* ===================================================================== *)
(** * Strings                                                             *)
(* ===================================================================== *)

Section Strings.
Import Py.

Lemma append_cons (c : ascii) (a b : string) :
  String c a +:+ b = String c (a +:+ b).
Proof. reflexivity. Qed.

Lemma append_nil_l (b : string) : "" +:+ b = b.
Proof. reflexivity. Qed.

Lemma append_assoc (a b c : string) : (a +:+ b) +:+ c = a +:+ (b +:+ c).
Proof.
  induction a as [|x a IH]; [reflexivity |].
  now rewrite !append_cons, IH.
Qed.

Lemma append_nil_r (a : string) : a +:+ "" = a.
Proof.
  induction a as [|x a IH]; [reflexivity |]. now rewrite append_cons, IH.
Qed.

Lemma lacks_append (x : ascii) (a b : string) :
  lacks x (a +:+ b) = lacks x a && lacks x b.
Proof.
  induction a as [|c a IH]; [reflexivity |].
  rewrite append_cons. cbn [lacks]. now rewrite IH, andb_assoc.
Qed.

Lemma prefix_append (a b : string) : String.prefix a (a +:+ b) = true.
Proof.
  induction a as [|c a IH]; [now destruct b |].
  rewrite append_cons. cbn [String.prefix].
  destruct (Ascii.ascii_dec c c); [exact IH | congruence].
Qed.

(** A text that starts with what lacks [x], then a space, does not start
    with [x]. *)
Lemma prefix_lacks (x : ascii) (sep a t : string) :
  x <> " "%char -> lacks x a = true ->
  String.prefix (String x sep) (a +:+ String " " t) = false.
Proof.
  intros Hx Ha. destruct a as [|c a].
  - rewrite append_nil_l. cbn [String.prefix].
    destruct (Ascii.ascii_dec x " "); [contradiction | reflexivity].
  - rewrite append_cons. cbn [String.prefix]. cbn [lacks] in Ha.
    destruct (Ascii.ascii_dec x c) as [->|]; [| reflexivity].
    now rewrite Ascii.eqb_refl in Ha.
Qed.

(** [s.split(" x...")[0]] is what stands before the first [" x..."], as
    soon as that part has no [x] in it. *)
Lemma first_split_before (x : ascii) (sep a b : string) :
  x <> " "%char -> lacks x a = true ->
  first (split (String " " (String x sep))
           (a +:+ String " " (String x sep) +:+ b)) = a.
Proof.
  intros Hx. unfold split. induction a as [|c a IH]; intros Ha.
  - rewrite append_nil_l, append_cons. cbn [split_go].
    replace (String.prefix _ _) with true; [reflexivity |].
    symmetry. rewrite <- append_cons.
    apply (prefix_append (String " " (String x sep)) b).
  - cbn [lacks] in Ha. apply andb_prop in Ha as [Hc Ha].
    rewrite append_cons. cbn [split_go].
    replace (String.prefix _ _) with false.
    + specialize (IH Ha).
      destruct (split_go _ 0 _) as [|w ws]; cbn in *; now subst.
    + symmetry. cbn [String.prefix].
      destruct (Ascii.ascii_dec " " c); [| reflexivity].
      rewrite append_cons.
      apply (prefix_lacks x sep a (String x sep +:+ b) Hx Ha).
Qed.

Lemma contains_append (sub a b : string) : contains sub (a +:+ sub +:+ b) = true.
Proof.
  induction a as [|c a IH].
  - rewrite append_nil_l.
    destruct (sub +:+ b) eqn:Hs; cbn [contains];
      rewrite <- Hs, prefix_append; reflexivity.
  - rewrite append_cons. cbn [contains]. rewrite IH. apply orb_true_r.
Qed.

Lemma contains_lacks (x : ascii) (sub s : string) :
  lacks x s = true -> contains (String x sub) s = false.
Proof.
  induction s as [|c s IH]; intros Hs; [reflexivity |].
  cbn [lacks] in Hs. apply andb_prop in Hs as [Hc Hs].
  cbn [contains String.prefix]. rewrite (IH Hs).
  destruct (Ascii.ascii_dec x c) as [->|]; [| reflexivity].
  now rewrite Ascii.eqb_refl in Hc.
Qed.

Lemma prefix_empty (t : string) : String.prefix "" t = true.
Proof. now destruct t. Qed.

Lemma split_space_word (w : string) :
  lacks " " w = true -> split " " w = [w].
Proof.
  unfold split. induction w as [|c w IH]; intros Hw; [reflexivity |].
  cbn [lacks] in Hw. apply andb_prop in Hw as [Hc Hw].
  cbn [split_go String.prefix].
  destruct (Ascii.ascii_dec " " c) as [<-|]; [discriminate Hc |].
  now rewrite (IH Hw).
Qed.

Lemma split_space_ends (a w : string) :
  lacks " " w = true ->
  exists x l, split " " (a +:+ String " " w) = x :: l ++ [w].
Proof.
  intros Hw. pose proof (split_space_word w Hw) as Hword.
  unfold split in *. induction a as [|c a [x [l IH]]].
  - exists "", []. rewrite append_nil_l.
    cbn [split_go String.prefix String.length Nat.pred].
    destruct (Ascii.ascii_dec " " " "); [| congruence].
    now rewrite prefix_empty, Hword.
  - rewrite append_cons.
    cbn [split_go String.prefix String.length Nat.pred].
    rewrite prefix_empty, IH.
    destruct (Ascii.ascii_dec " " c).
    + exists "", (x :: l). reflexivity.
    + exists (String c x), l. reflexivity.
Qed.

(** [s.split(" ")[-1]] is the last word. *)
Lemma last_split_space (a w : string) :
  lacks " " w = true -> last (split " " (a +:+ String " " w)) = w.
Proof.
  intros Hw. destruct (split_space_ends a w Hw) as [x [l ->]].
  unfold last. change (x :: l ++ [w]) with ((x :: l) ++ [w]).
  apply List.last_last.
Qed.

(** ** Decimal numerals *)

Lemma lacks_uint (x : ascii) (d : Decimal.uint) :
  digit_of x = None -> lacks x (NilEmpty.string_of_uint d) = true.
Proof.
  intros Hx.
  induction d as [|d IH|d IH|d IH|d IH|d IH|d IH|d IH|d IH|d IH|d IH];
    cbn [NilEmpty.string_of_uint lacks]; [reflexivity | ..];
    rewrite IH, andb_true_r;
    match goal with
    | |- negb (Ascii.eqb ?c x) = true =>
        destruct (Ascii.eqb_spec c x) as [<-|]; [discriminate Hx | reflexivity]
    end.
Qed.

Lemma lacks_dec (x : ascii) (n : nat) :
  digit_of x = None -> lacks x (dec n) = true.
Proof.
  intros Hx. unfold dec, NilZero.string_of_uint.
  destruct (Nat.to_uint n) eqn:Hd; try (rewrite <- Hd; now apply lacks_uint).
  cbn [lacks]. rewrite andb_true_r.
  destruct (Ascii.eqb_spec "0" x) as [<-|]; [discriminate Hx | reflexivity].
Qed.

Lemma rstrip_uint (d : Decimal.uint) :
  rstrip (NilEmpty.string_of_uint d) = NilEmpty.string_of_uint d.
Proof.
  induction d as [|d IH|d IH|d IH|d IH|d IH|d IH|d IH|d IH|d IH|d IH];
    cbn [NilEmpty.string_of_uint rstrip]; [reflexivity | ..];
    rewrite IH; now destruct (NilEmpty.string_of_uint d).
Qed.

Lemma parse_digits_uint (d : Decimal.uint) (acc : nat) :
  parse_digits (Z.of_nat acc) (NilEmpty.string_of_uint d) =
    Some (Z.of_nat (Nat.of_uint_acc d acc)).
Proof.
  revert acc.
  induction d as [|d IH|d IH|d IH|d IH|d IH|d IH|d IH|d IH|d IH|d IH];
    intros acc; cbn [NilEmpty.string_of_uint parse_digits Nat.of_uint_acc];
    [reflexivity | ..];
    match goal with
    | |- context [digit_of ?c] =>
        let v := eval vm_compute in (digit_of c) in
        change (digit_of c) with v; cbv iota
    end;
    rewrite <- IH; f_equal; rewrite Nat.tail_mul_spec; lia.
Qed.

Lemma int_uint (d : Decimal.uint) :
  d <> Decimal.Nil ->
  int (NilEmpty.string_of_uint d) = Some (Z.of_nat (Nat.of_uint d)).
Proof.
  intros Hd. unfold int, strip.
  assert (Hl : lstrip (NilEmpty.string_of_uint d) = NilEmpty.string_of_uint d)
    by (destruct d; try reflexivity; contradiction).
  rewrite Hl, rstrip_uint. unfold Nat.of_uint.
  destruct d; [contradiction | ..];
    cbn [NilEmpty.string_of_uint]; cbv beta iota; unfold parse_nonempty;
    match goal with
    | |- _ = Some (Z.of_nat (Nat.of_uint_acc ?u 0)) =>
        exact (parse_digits_uint u 0)
    end.
Qed.

(** [int] reads back what the formatter printed. *)
Lemma int_dec (n : nat) : int (dec n) = Some (Z.of_nat n).
Proof.
  unfold dec, NilZero.string_of_uint.
  rewrite <- (DecimalNat.Unsigned.of_to n) at 2.
  destruct (Nat.to_uint n) eqn:Hd; try (rewrite <- Hd at 1; rewrite Hd at 1;
    apply int_uint; discriminate).
  reflexivity.
Qed.

End Strings.

(* ===================================================================== *)
(** * Uptime sample (gr.py)                                               *)
(* ===================================================================== *)

Ltac string_norm :=
  repeat (rewrite append_assoc || rewrite append_cons || rewrite append_nil_l).

Section UptimeText.
Import Py.

Lemma parse_field_absent (x : ascii) (rest s : string) :
  lacks x s = true -> Gr.parse_field (String x rest) s = Some 0%Z.
Proof.
  intros Hs. unfold Gr.parse_field. now rewrite (contains_lacks x rest s Hs).
Qed.

Lemma parse_field_present (x : ascii) (rest before after : string) (n : nat) :
  x <> " "%char -> digit_of x = None -> lacks x before = true ->
  Gr.parse_field (String x rest)
    (before +:+ String " " (dec n +:+ String " " (String x rest +:+ after)))
  = Some (Z.of_nat n).
Proof.
  intros Hsp Hdig Hbefore. unfold Gr.parse_field.
  set (s := before +:+ _).
  assert (Hc : s = (before +:+ String " " (dec n +:+ " "))
                     +:+ String x rest +:+ after)
    by (unfold s; string_norm; reflexivity).
  assert (Hf : s = (before +:+ String " " (dec n))
                     +:+ String " " (String x rest) +:+ after)
    by (unfold s; string_norm; reflexivity).
  rewrite Hc at 1. rewrite contains_append.
  change (" " +:+ String x rest) with (String " " (String x rest)).
  rewrite Hf, first_split_before; [| exact Hsp |].
  - rewrite last_split_space; [apply int_dec |].
    apply lacks_dec. reflexivity.
  - rewrite lacks_append, Hbefore. cbn [lacks].
    rewrite (lacks_dec x n Hdig), andb_true_r.
    destruct (Ascii.eqb_spec " " x) as [<-|]; [contradiction | reflexivity].
Qed.

Lemma concat_comma_cons (x : string) (l : list string) :
  String.concat ", " (x :: l) =
    x +:+ match l with [] => "" | _ => ", " +:+ String.concat ", " l end.
Proof. destruct l; cbn [String.concat]; [now rewrite append_nil_r | reflexivity]. Qed.

Lemma lacks_plural (x : ascii) (b : bool) :
  Ascii.eqb "s" x = false -> lacks x (if b then "" else "s") = true.
Proof. intros Hx. destruct b; cbn [lacks]; [reflexivity | now rewrite Hx]. Qed.

Ltac lacks_tac :=
  repeat (rewrite lacks_append
          || (progress (cbn [lacks]))
          || (rewrite lacks_dec by reflexivity)
          || (rewrite lacks_plural by reflexivity)
          || match goal with
             | H : lacks ?x ?p = true |- context [lacks ?x ?p] => rewrite H
             end);
  reflexivity.

(** The text up to and including the days component. *)
Lemma uptime_pretty_shape (weeks days hours minutes : nat) :
  days <> 0%nat ->
  exists upto_days : string,
    lacks "h" upto_days = true /\ lacks "m" upto_days = true /\
    uptime_pretty weeks days hours minutes =
      upto_days +:+
      match (component hours "hour" ++ component minutes "minute")%list with
      | [] => ""
      | l => ", " +:+ String.concat ", " l
      end +:+ newline.
Proof.
  intros Hd. unfold uptime_pretty.
  unfold component at 1 2.
  destruct (Nat.eqb_spec days 0) as [|_]; [contradiction |].
  set (rest := component hours "hour" ++ component minutes "minute").
  destruct (Nat.eqb_spec weeks 0) as [_|_]; cbn [app].
  - exists ("up " +:+ dec days +:+ " day"
              +:+ (if (days =? 1)%nat then "" else "s")).
    split; [lacks_tac | split; [lacks_tac |]].
    rewrite concat_comma_cons.
    destruct rest; string_norm; reflexivity.
  - exists ("up " +:+ dec weeks +:+ " week"
              +:+ (if (weeks =? 1)%nat then "" else "s") +:+ ", "
              +:+ dec days +:+ " day"
              +:+ (if (days =? 1)%nat then "" else "s")).
    split; [lacks_tac | split; [lacks_tac |]].
    rewrite 2!concat_comma_cons.
    destruct rest; string_norm; reflexivity.
Qed.

(** With a days component in the text, the two fields read are the hours
    and the minutes; weeks and days leave no trace in the sample. *)
Lemma parse_uptime_pretty (weeks days hours minutes : nat) :
  days <> 0%nat ->
  Gr.parse_uptime (uptime_pretty weeks days hours minutes) =
    Some (Z.of_nat hours * 3600 + Z.of_nat minutes * 60)%Z.
Proof.
  intros Hd.
  destruct (uptime_pretty_shape weeks days hours minutes Hd)
    as [P [Hh [Hm ->]]].
  unfold Gr.parse_uptime, component, newline.
  set (ph := if (hours =? 1)%nat then "" else "s").
  set (pm := if (minutes =? 1)%nat then "" else "s").
  destruct (Nat.eqb_spec hours 0) as [->|_], (Nat.eqb_spec minutes 0) as [->|_];
    cbn [app String.concat].
  - rewrite !parse_field_absent by (subst ph pm; lacks_tac). reflexivity.
  - set (S := P +:+ _).
    assert (H1 : Gr.parse_field "hour" S = Some 0%Z)
      by (apply parse_field_absent; subst S ph pm; lacks_tac).
    assert (H2 : Gr.parse_field "minute" S = Some (Z.of_nat minutes)).
    { replace S with
        ((P +:+ ",") +:+ String " "
           (dec minutes +:+ String " " ("minute" +:+ pm +:+ newline)))
        by (subst S; unfold newline; string_norm; reflexivity).
      apply parse_field_present; [discriminate | reflexivity |].
      subst ph pm; lacks_tac. }
    rewrite H1, H2. reflexivity.
  - set (S := P +:+ _).
    assert (H1 : Gr.parse_field "hour" S = Some (Z.of_nat hours)).
    { replace S with
        ((P +:+ ",") +:+ String " "
           (dec hours +:+ String " " ("hour" +:+ ph +:+ newline)))
        by (subst S; unfold newline; string_norm; reflexivity).
      apply parse_field_present; [discriminate | reflexivity |].
      subst ph pm; lacks_tac. }
    assert (H2 : Gr.parse_field "minute" S = Some 0%Z)
      by (apply parse_field_absent; subst S ph pm; lacks_tac).
    rewrite H1, H2. reflexivity.
  - set (S := P +:+ _).
    assert (H1 : Gr.parse_field "hour" S = Some (Z.of_nat hours)).
    { replace S with
        ((P +:+ ",") +:+ String " "
           (dec hours +:+ String " "
              ("hour" +:+ ph +:+ ", " +:+ dec minutes +:+ " minute" +:+ pm
                 +:+ newline)))
        by (subst S; unfold newline; string_norm; reflexivity).
      apply parse_field_present; [discriminate | reflexivity |].
      subst ph pm; lacks_tac. }
    assert (H2 : Gr.parse_field "minute" S = Some (Z.of_nat minutes)).
    { replace S with
        ((P +:+ ", " +:+ dec hours +:+ " hour" +:+ ph +:+ ",") +:+ String " "
           (dec minutes +:+ String " " ("minute" +:+ pm +:+ newline)))
        by (subst S; unfold newline; string_norm; reflexivity).
      apply parse_field_present; [discriminate | reflexivity |].
      subst ph pm; lacks_tac. }
    rewrite H1, H2. reflexivity.
Qed.

End UptimeText.

(* ===================================================================== *)
(** * Resource planner (myne.py)                                          *)
(* ===================================================================== *)

Section Planner.
Import Py Myne.

Lemma allocated_plan (cpu_cores : Z) :
  allocated (calculate_threads_and_limits cpu_cores) = cpu_cores.
Proof.
  unfold calculate_threads_and_limits, allocated.
  destruct (cpu_cores >=? CPU_LIMIT_THRESHOLD)%Z; lia.
Qed.

Lemma length_append (a b : string) :
  String.length (a +:+ b) = (String.length a + String.length b)%nat.
Proof. induction a as [|c a IH]; simpl; [reflexivity | now rewrite IH]. Qed.

Lemma main_command_not_free (k : Z) : main_command k <> free_command.
Proof.
  unfold main_command, free_command, XMRIG_PATH, DEFAULT_HOST. simpl.
  intros H. apply (f_equal String.length) in H. simpl in H.
  repeat (rewrite length_append in H; simpl in H). lia.
Qed.

Lemma main_command_not_limited (k : Z) : main_command k <> limited_command.
Proof.
  unfold main_command, limited_command, XMRIG_PATH, CPULIMIT_PATH. simpl.
  intros H. discriminate H.
Qed.

Lemma limited_not_free : limited_command <> free_command.
Proof. intros H. discriminate H. Qed.

(** C4, as stated, fails at 8 cores: no headroom of at least one core
    exists, the plan hands out 6 + 1 + 1 = 8 threads, not at most 7. *)
Lemma C4_no_headroom_at_8 :
  calculate_threads_and_limits 8 = (6, 1, 1)%Z /\
  ~ (exists reserved : Z,
       (1 <= reserved)%Z /\
       (allocated (calculate_threads_and_limits 8) <= 8 - reserved)%Z).
Proof.
  split; [reflexivity |].
  intros [reserved [Hres Hsum]]. rewrite allocated_plan in Hsum. lia.
Qed.

(** C4, amended: for every core count the threads of the three roles sum
    to exactly the core count, on both sides of the threshold of 8; no
    core is held back. For 8 cores the sum is 8. *)
Theorem C4_allocated_equals_cores :
  (forall cpu_cores : Z,
     allocated (calculate_threads_and_limits cpu_cores) = cpu_cores) /\
  allocated (calculate_threads_and_limits 8) = 8%Z.
Proof. split; [exact allocated_plan | reflexivity]. Qed.

(** C8: below 8 cores the plan is (cores - 1, 1, 0), from 8 cores on it is
    (cores - 2, 1, 1); a role with zero threads has no command in the
    command set; one core gives the limited command alone. *)
Theorem C8_plan_and_omitted_roles :
  (forall cpu_cores : Z,
     calculate_threads_and_limits cpu_cores =
       if (cpu_cores <? 8)%Z then (cpu_cores - 1, 1, 0)%Z
       else (cpu_cores - 2, 1, 1)%Z) /\
  (forall l f k : Z, member (main_command k) (create_xmrig_commands 0 l f) = false) /\
  (forall m f : Z, member limited_command (create_xmrig_commands m 0 f) = false) /\
  (forall m l : Z, member free_command (create_xmrig_commands m l 0) = false) /\
  (let '(m, l, f) := calculate_threads_and_limits 1 in
   (m, l, f) = (0, 1, 0)%Z /\ create_xmrig_commands m l f = [limited_command]).
Proof.
  split; [| split; [| split; [| split]]].
  - intros c. unfold calculate_threads_and_limits, CPU_LIMIT_THRESHOLD.
    destruct (Z.ltb_spec c 8), (Z.geb_spec c 8); try reflexivity; lia.
  - intros l f k. unfold create_xmrig_commands, member.
    change (0 >? 0)%Z with false.
    pose proof (main_command_not_free k) as Hf.
    pose proof (main_command_not_limited k) as Hl.
    apply String.eqb_neq in Hf, Hl.
    destruct (l >? 0)%Z, (f >? 0)%Z; cbn [app existsb]; rewrite ?Hf, ?Hl; reflexivity.
  - intros m f. unfold create_xmrig_commands, member.
    change (0 >? 0)%Z with false.
    pose proof limited_not_free as Hf. apply String.eqb_neq in Hf.
    assert (Hm : (limited_command =? main_command m)%string = false).
    { apply String.eqb_neq. intros H. symmetry in H.
      exact (main_command_not_limited m H). }
    destruct (m >? 0)%Z, (f >? 0)%Z; cbn [app existsb]; rewrite ?Hm, ?Hf; reflexivity.
  - intros m l. unfold create_xmrig_commands, member.
    change (0 >? 0)%Z with false.
    assert (Hl : (free_command =? limited_command)%string = false) by reflexivity.
    assert (Hm : (free_command =? main_command m)%string = false).
    { apply String.eqb_neq. intros H. symmetry in H.
      exact (main_command_not_free m H). }
    destruct (m >? 0)%Z, (l >? 0)%Z; cbn [app existsb]; rewrite ?Hm, ?Hl; reflexivity.
  - split; reflexivity.
Qed.

End Planner.

(* ===================================================================== *)
(** * Sentinel watchdog (gr.py)                                           *)
(* ===================================================================== *)

Section Sentinel.
Import Py Gr.
Variable E : env.

(** The check, case by case on what the file system answers. *)
Lemma check_file_modification_cases (path : string) (s : state) :
  check_file_modification E path s =
    match mtime_at E path (clock s) with
    | Mtime t =>
        if (now_at E (clock s) - t >? timedelta_hours 36)%Z
        then (Ret true, snd (log DEBUG "File modification condition met." s))
        else (Ret false, s)
    | Missing => (Ret false, snd (log WARNING ("File not found: " +:+ path) s))
    | Unreadable =>
        (Ret false, snd (log ERROR "Error checking file modification" s))
    end.
Proof.
  unfold check_file_modification, try_except, bind, getmtime_datetime,
    datetime_now.
  destruct (mtime_at E path (clock s)) as [t| |]; cbn; try reflexivity.
  destruct (now_at E (clock s) - t >? timedelta_hours 36)%Z; reflexivity.
Qed.

(** C2: the check returns a boolean and never raises; the answer is [true]
    exactly when the modification time can be read and is more than 36
    hours old; a missing file and a failed read both give [false]. The
    check changes neither the file system nor the clock. *)
Theorem C2_sentinel_check (path : string) (s : state) :
  exists (b : bool) (s' : state),
    check_file_modification E path s = (Ret b, s') /\
    (b = true <-> stale E path (clock s)) /\
    b = match mtime_at E path (clock s) with
        | Mtime t => (now_at E (clock s) - t >? 36 * 3600 * 1000000)%Z
        | Missing => false
        | Unreadable => false
        end /\
    fs s' = fs s /\ clock s' = clock s.
Proof.
  rewrite check_file_modification_cases. unfold stale.
  change (timedelta_hours 36) with (36 * 3600 * 1000000)%Z.
  destruct (mtime_at E path (clock s)) as [t| |] eqn:Hm.
  - destruct (Z.gtb_spec (now_at E (clock s) - t) (36 * 3600 * 1000000)).
    + eexists _, _. repeat split; eauto. intros _. exists t. split; [reflexivity | lia].
    + eexists _, _. repeat split; eauto; try discriminate.
      intros [t' [Ht' Hgt]]. injection Ht' as <-. lia.
  - eexists _, _. repeat split; eauto; try discriminate.
    intros [t' [Ht' _]]. discriminate Ht'.
  - eexists _, _. repeat split; eauto; try discriminate.
    intros [t' [Ht' _]]. discriminate Ht'.
Qed.

End Sentinel.

(** The boundary of the threshold: one second short of 36 hours, one
    second past it, exactly 36 hours, and no file at all. *)
Example sentinel_boundary :
  let hour := (3600 * 1000000)%Z in
  let second := 1000000%Z in
  fst (Gr.check_file_modification
         (gr_host_at (Gr.Mtime 0) (36 * hour - second)) Gr.sentinel_path gr_bare)
    = Py.Ret false /\
  fst (Gr.check_file_modification
         (gr_host_at (Gr.Mtime 0) (36 * hour + second)) Gr.sentinel_path gr_bare)
    = Py.Ret true /\
  fst (Gr.check_file_modification
         (gr_host_at (Gr.Mtime 0) (36 * hour)) Gr.sentinel_path gr_bare)
    = Py.Ret false /\
  fst (Gr.check_file_modification
         (gr_host_at Gr.Missing (37 * hour)) Gr.sentinel_path gr_bare)
    = Py.Ret false /\
  fst (Gr.check_file_modification
         (gr_host_at Gr.Unreadable (37 * hour)) Gr.sentinel_path gr_bare)
    = Py.Ret false.
Proof. repeat split. Qed.

(* ===================================================================== *)
(** * Watchdog loop and fail-safe (gr.py)                                 *)
(* ===================================================================== *)

Section Watchdog.
Import Py Gr.
Variable E : env.

Lemma check_sentinel (s : state) :
  check_file_modification E sentinel_path s =
    (Ret (triggered E (clock s)),
     {| fs := fs s; clock := clock s;
        trace := trace s ++ check_events E (clock s) |}).
Proof.
  rewrite check_file_modification_cases. unfold triggered, check_events.
  destruct s as [f c tr]; cbn.
  destruct (mtime_at E sentinel_path c) as [t| |]; try reflexivity.
  destruct (now_at E c - t >? timedelta_hours 36)%Z;
    [reflexivity | now rewrite app_nil_r].
Qed.

Lemma shutdown_system_run (s : state) :
  shutdown_system E s =
    (Ret tt,
     {| fs := fs s;
        clock := if sysrq_ok E then S (clock s) else clock s;
        trace := trace s ++ shutdown_events E |}).
Proof.
  unfold shutdown_system, shutdown_events, try_except, for_each, bind,
    sysrq_write.
  destruct (sysrq_ok E); cbn; [| reflexivity].
  now rewrite <- !app_assoc.
Qed.

Lemma quiet_S (k n : nat) :
  quiet E k (S n) = negb (triggered E k) && quiet E (S k) n.
Proof. reflexivity. Qed.

Lemma failsafe_runs_app (a b : list event) :
  failsafe_runs (a ++ b) = (failsafe_runs a + failsafe_runs b)%nat.
Proof. unfold failsafe_runs. now rewrite List.filter_app, List.length_app. Qed.

Lemma failsafe_runs_check (k : nat) : failsafe_runs (check_events E k) = 0%nat.
Proof.
  unfold check_events.
  destruct (mtime_at E sentinel_path k) as [t| |]; try reflexivity.
  destruct (now_at E k - t >? timedelta_hours 36)%Z; reflexivity.
Qed.

Lemma failsafe_runs_quiet (n k : nat) :
  failsafe_runs (quiet_ticks E k n) = 0%nat.
Proof.
  revert k. induction n as [|n IH]; intros k; [reflexivity |].
  cbn [quiet_ticks]. rewrite !failsafe_runs_app, failsafe_runs_check, IH.
  reflexivity.
Qed.

Lemma failsafe_runs_shutdown : failsafe_runs (shutdown_events E) = 1%nat.
Proof. unfold shutdown_events. destruct (sysrq_ok E); reflexivity. Qed.

(** While the check stays negative the loop only polls and sleeps. *)
Lemma watch_loop_quiet (n : nat) (s : state) :
  quiet E (clock s) n = true ->
  watch_loop E n s =
    (Timeout,
     {| fs := fs s; clock := (clock s + n)%nat;
        trace := trace s ++ quiet_ticks E (clock s) n |}).
Proof.
  revert s. induction n as [|n IH]; intros s Hq.
  - destruct s; cbn. now rewrite Nat.add_0_r, app_nil_r.
  - rewrite quiet_S in Hq. apply andb_prop in Hq as [Hk Hq].
    apply negb_true_iff in Hk.
    cbn [watch_loop]. unfold bind at 1. rewrite check_sentinel, Hk.
    unfold bind, time_sleep. cbn.
    rewrite IH by exact Hq. cbn.
    now rewrite Nat.add_succ_r, <- !app_assoc.
Qed.

(** The first positive check runs the fail-safe once and ends the loop. *)
Lemma watch_loop_fires (n fuel : nat) (s : state) :
  quiet E (clock s) n = true ->
  triggered E (clock s + n) = true ->
  (n < fuel)%nat ->
  watch_loop E fuel s =
    (Ret tt,
     {| fs := fs s;
        clock := if sysrq_ok E then S (clock s + n) else (clock s + n)%nat;
        trace := trace s ++ quiet_ticks E (clock s) n
                   ++ check_events E (clock s + n) ++ shutdown_events E |}).
Proof.
  revert fuel s. induction n as [|n IH]; intros fuel s Hq Ht Hlt.
  - destruct fuel as [|fuel]; [lia |].
    rewrite Nat.add_0_r in *.
    cbn [watch_loop]. unfold bind. rewrite check_sentinel, Ht.
    rewrite shutdown_system_run. cbn. now rewrite <- !app_assoc.
  - destruct fuel as [|fuel]; [lia |].
    rewrite quiet_S in Hq. apply andb_prop in Hq as [Hk Hq].
    apply negb_true_iff in Hk.
    cbn [watch_loop]. unfold bind at 1. rewrite check_sentinel, Hk.
    unfold bind, time_sleep. cbn.
    rewrite (IH fuel); cbn; [| exact Hq | now rewrite <- Nat.add_succ_r | lia].
    now rewrite Nat.add_succ_r, <- !app_assoc.
Qed.

Lemma sysrq_writes_app (a b : list event) :
  sysrq_writes (a ++ b) = sysrq_writes a ++ sysrq_writes b.
Proof. unfold sysrq_writes. apply flat_map_app. Qed.

Lemma sysrq_writes_check (k : nat) : sysrq_writes (check_events E k) = [].
Proof.
  unfold check_events.
  destruct (mtime_at E sentinel_path k) as [t| |]; try reflexivity.
  destruct (now_at E k - t >? timedelta_hours 36)%Z; reflexivity.
Qed.

Lemma sysrq_writes_quiet (n k : nat) : sysrq_writes (quiet_ticks E k n) = [].
Proof.
  revert k. induction n as [|n IH]; intros k; [reflexivity |].
  cbn [quiet_ticks]. rewrite !sysrq_writes_app, sysrq_writes_check, IH.
  reflexivity.
Qed.

Lemma check_events_triggered (k : nat) :
  triggered E k = true ->
  check_events E k = [EvLog DEBUG "File modification condition met."].
Proof.
  unfold triggered, check_events.
  destruct (mtime_at E sentinel_path k) as [t| |]; try discriminate.
  now intros ->.
Qed.

(** C1: as long as the sentinel check is negative the loop runs no
    fail-safe; at the first positive check it runs the fail-safe exactly
    once and returns, so the events of that one run are the last of the
    trace; when the control interface can be written, the power-off
    command is the one thing written to it. *)
Theorem C1_failsafe_exactly_once (n : nat) (s : state) :
  quiet E (clock s) n = true ->
  (exists s', watch_loop E n s = (Timeout, s') /\
              trace s' = trace s ++ quiet_ticks E (clock s) n /\
              failsafe_runs (trace s') = failsafe_runs (trace s) /\
              sysrq_writes (trace s') = sysrq_writes (trace s)) /\
  (triggered E (clock s + n) = true ->
   forall fuel, (n < fuel)%nat ->
   exists s0 s',
     trace s0 = trace s ++ quiet_ticks E (clock s) n
                  ++ [EvLog DEBUG "File modification condition met."] /\
     watch_loop E fuel s = shutdown_system E s0 /\
     shutdown_system E s0 = (Ret tt, s') /\
     trace s' = trace s0 ++ shutdown_events E /\
     failsafe_runs (trace s') = S (failsafe_runs (trace s)) /\
     sysrq_writes (trace s') =
       sysrq_writes (trace s) ++ (if sysrq_ok E then ["o"] else [])).
Proof.
  intros Hq. split.
  - exists {| fs := fs s; clock := (clock s + n)%nat;
              trace := trace s ++ quiet_ticks E (clock s) n |}.
    split; [apply watch_loop_quiet, Hq |]. cbn [trace].
    rewrite failsafe_runs_app, failsafe_runs_quiet.
    rewrite sysrq_writes_app, sysrq_writes_quiet, app_nil_r.
    repeat split. lia.
  - intros Ht fuel Hlt.
    exists {| fs := fs s; clock := (clock s + n)%nat;
              trace := trace s ++ quiet_ticks E (clock s) n
                         ++ check_events E (clock s + n) |}.
    eexists.
    rewrite (watch_loop_fires n fuel s Hq Ht Hlt), shutdown_system_run.
    rewrite (check_events_triggered _ Ht). cbn.
    split; [reflexivity |].
    split; [now rewrite <- !app_assoc |].
    split; [reflexivity |].
    split; [reflexivity |].
    cbn [trace].
    rewrite !failsafe_runs_app, failsafe_runs_quiet, failsafe_runs_shutdown.
    rewrite !sysrq_writes_app, sysrq_writes_quiet.
    split; [cbn; lia |].
    cbn. unfold shutdown_events. destruct (sysrq_ok E); now rewrite ?app_nil_r.
Qed.

(** Nothing in the loop raises: the check and the fail-safe catch their
    own errors. *)
Lemma watch_loop_no_raise (fuel : nat) (s : state) (e : exn) :
  fst (watch_loop E fuel s) <> Raise e.
Proof.
  revert s. induction fuel as [|fuel IH]; intros s; [discriminate |].
  cbn [watch_loop]. unfold bind at 1. rewrite check_sentinel.
  destruct (triggered E (clock s)).
  - rewrite shutdown_system_run. discriminate.
  - unfold bind, time_sleep. cbn. apply IH.
Qed.

Lemma get_system_uptime_sample (out : string) (u : Z) (s : state) :
  uptime_p E = Some out -> parse_uptime out = Some u ->
  get_system_uptime E s = (Ret (Some u), s).
Proof.
  intros Hout Hu.
  unfold get_system_uptime, try_except, bind, check_output_uptime.
  rewrite Hout. cbn. rewrite Hu. reflexivity.
Qed.

Lemma warm_up_run (out : string) (u : Z) (s : state) :
  uptime_p E = Some out -> parse_uptime out = Some u ->
  warm_up E s =
    (Ret tt,
     {| fs := fs s;
        clock := if (u <? 1800)%Z then S (clock s) else clock s;
        trace := trace s ++ warm_up_events u |}).
Proof.
  intros Hout Hu. unfold warm_up, bind at 1.
  rewrite (get_system_uptime_sample out u s Hout Hu).
  unfold warm_up_events.
  destruct (Z.ltb_spec u 1800) as [Hlt|Hge].
  - unfold bind, time_sleep, log, emit.
    destruct (Z.ltb_spec (1800 - u) 0) as [Hneg|_]; [lia |].
    cbn. now rewrite <- app_assoc.
  - destruct s; cbn. now rewrite app_nil_r.
Qed.

(** C9: when the installer reports nothing to do and the uptime sample is
    [u] seconds, [main] is the polling loop started after the warm-up: for
    [u < 1800] one log line and one sleep of exactly [1800 - u] seconds,
    for [u >= 1800] nothing at all; the first thing the loop does is the
    sentinel check, at the instant the warm-up ends. *)
Theorem C9_warm_up_delay (fuel : nat) (s s1 : state) (out : string) (u : Z) :
  install_self E s = (Ret false, s1) ->
  uptime_p E = Some out ->
  parse_uptime out = Some u ->
  exists s_w,
    main E (S fuel) s = watch_loop E (S fuel) s_w /\
    fs s_w = fs s1 /\
    trace s_w = trace s1 ++ warm_up_events u /\
    warm_up_events u =
      (if (u <? 1800)%Z
       then [EvLog INFO
               ("System uptime is less than 30 Minutes (" +:+ str u
                  +:+ " seconds). Delaying file check.");
             EvSleep (1800 - u)]
       else []) /\
    clock s_w = (if (u <? 1800)%Z then S (clock s1) else clock s1) /\
    watch_loop E (S fuel) s_w =
      (let! triggered := check_file_modification E sentinel_path in
       if triggered then shutdown_system E
       else time_sleep 420 ;> watch_loop E fuel) s_w.
Proof.
  intros Hinst Hout Hu.
  exists {| fs := fs s1;
            clock := if (u <? 1800)%Z then S (clock s1) else clock s1;
            trace := trace s1 ++ warm_up_events u |}.
  repeat split.
  unfold main, try_except. unfold bind at 1. rewrite Hinst.
  unfold bind at 1. rewrite (warm_up_run out u s1 Hout Hu).
  set (s_w := {| fs := fs s1; clock := _; trace := _ |}).
  pose proof (watch_loop_no_raise (S fuel) s_w) as Hno.
  destruct (watch_loop E (S fuel) s_w) as [[a|e|] s2]; try reflexivity.
  exfalso. exact (Hno e eq_refl).
Qed.

(** C10: for every uptime text with a days component the sample is
    hours * 3600 + minutes * 60: the days (and weeks) are left out. So a
    host that has been up for days, at a moment when the hours are 0 and
    the minutes below 30, is sampled below 1800 seconds and the warm-up
    delay is taken. *)
Theorem C10_uptime_sample_drops_days
    (weeks days hours minutes : nat) (s : state) :
  (1 <= days)%nat ->
  uptime_p E = Some (uptime_pretty weeks days hours minutes) ->
  get_system_uptime E s =
    (Ret (Some (Z.of_nat hours * 3600 + Z.of_nat minutes * 60)%Z), s) /\
  (hours = 0%nat -> (minutes < 30)%nat ->
   warm_up E s =
     (Ret tt,
      {| fs := fs s; clock := S (clock s);
         trace := trace s ++
           [EvLog INFO
              ("System uptime is less than 30 Minutes ("
                 +:+ str (Z.of_nat minutes * 60)
                 +:+ " seconds). Delaying file check.");
            EvSleep (1800 - Z.of_nat minutes * 60)] |})).
Proof.
  intros Hd Hout.
  assert (Hp : parse_uptime (uptime_pretty weeks days hours minutes) =
               Some (Z.of_nat hours * 3600 + Z.of_nat minutes * 60)%Z)
    by (apply parse_uptime_pretty; lia).
  split.
  - exact (get_system_uptime_sample _ _ s Hout Hp).
  - intros -> Hm. rewrite (warm_up_run _ _ s Hout Hp).
    unfold warm_up_events. change (Z.of_nat 0 * 3600)%Z with 0%Z.
    rewrite Z.add_0_l.
    destruct (Z.ltb_spec (Z.of_nat minutes * 60) 1800); [reflexivity | lia].
Qed.

End Watchdog.

Example uptime_text_example :
  uptime_pretty 0 1 2 15 = "up 1 day, 2 hours, 15 minutes" +:+ newline /\
  uptime_pretty 2 3 0 1 = "up 2 weeks, 3 days, 1 minute" +:+ newline /\
  Gr.parse_uptime (uptime_pretty 0 1 2 15) = Some 8100%Z /\
  Gr.parse_uptime ("up 2 hours, 15 minutes" +:+ newline) = Some 8100%Z /\
  Gr.parse_uptime ("up 3 days" +:+ newline) = Some 0%Z.
Proof. repeat split; vm_compute; reflexivity. Qed.


(* ===================================================================== *)
(** * Installer (gr.py)                                                   *)
(* ===================================================================== *)

Section GrInstaller.
Import Py Gr.
Variable E : env.

Lemma calculate_file_hash_cases (path : string) (s : state) :
  calculate_file_hash E path s =
    match fs s !! path with
    | Some (File data) => (Ret (Some (sha256 E data)), s)
    | _ => (Ret None, snd (log ERROR "Error calculating file hash" s))
    end.
Proof.
  unfold calculate_file_hash, try_except, bind, read_file.
  destruct (fs s !! path) as [[data|]|]; reflexivity.
Qed.

Lemma yields_log (l : level) (msg : string) : yields any (log l msg).
Proof. intros s. reflexivity. Qed.

Lemma yields_shutil_copy (src dst : string) : yields any (shutil_copy E src dst).
Proof.
  intros s. unfold shutil_copy, bind, read_file.
  destruct (fs s !! src) as [[data|]|]; try reflexivity.
  destruct (can_write E dst); reflexivity.
Qed.

Lemma yields_write_file (path data : string) :
  yields any (write_file E path data).
Proof. intros s. unfold write_file. destruct (can_write E path); reflexivity. Qed.

Lemma yields_subprocess_run (argv : list string) :
  yields any (subprocess_run E argv).
Proof.
  intros s. unfold subprocess_run. destruct (systemctl_found E); reflexivity.
Qed.

(** The installation proper ends with [True] or with an exception. *)
Lemma yields_perform_install : yields (Bool.eqb true) (perform_install E).
Proof.
  unfold perform_install.
  repeat (apply yields_bind;
          [first [apply yields_log | apply yields_shutil_copy
                 | apply yields_write_file | apply yields_subprocess_run]
          | intros _]).
  now apply yields_ret.
Qed.

(** The comparison leaves the state as it is when it gives an answer. *)
Lemma up_to_date_cases (current : string) (s : state) :
  up_to_date E current s =
    match fs s !! target_path with
    | Some (File installed) =>
        (Ret (String.eqb current (sha256 E installed)), s)
    | Some Opaque =>
        (Raise (GenericException "Failed to calculate installed script hash."),
         snd (log ERROR "Error calculating file hash" s))
    | None => (Ret false, s)
    end.
Proof.
  unfold up_to_date, bind at 1, os_path_exists.
  destruct (fs s !! target_path) as [[installed|]|] eqn:Ht.
  - rewrite bool_decide_true by eauto.
    unfold bind. now rewrite calculate_file_hash_cases, Ht.
  - rewrite bool_decide_true by eauto.
    unfold bind. now rewrite calculate_file_hash_cases, Ht.
  - rewrite bool_decide_false by (intros [? ?]; discriminate). reflexivity.
Qed.

Lemma yields_install_body : yields any (install_body E).
Proof.
  intros s. unfold install_body, bind at 1.
  rewrite calculate_file_hash_cases.
  destruct (fs s !! script_path E) as [[own|]|]; try reflexivity.
  unfold bind at 1. rewrite up_to_date_cases.
  destruct (fs s !! target_path) as [[installed|]|]; try reflexivity.
  - destruct (String.eqb _ _); [reflexivity |].
    apply (yields_any _ _ yields_perform_install).
  - apply (yields_any _ _ yields_perform_install).
Qed.

(** With the target present and equal in hash, the installer only logs. *)
Lemma gr_install_up_to_date (s : state) (own installed : string) :
  fs s !! script_path E = Some (File own) ->
  fs s !! target_path = Some (File installed) ->
  sha256 E own = sha256 E installed ->
  install_body E s =
    (Ret false,
     {| fs := fs s; clock := clock s;
        trace := trace s ++
          [EvLog DEBUG "Script already installed and up to date."] |}).
Proof.
  intros Hown Hinst Hhash. unfold install_body, bind at 1.
  rewrite calculate_file_hash_cases, Hown.
  unfold bind at 1. rewrite up_to_date_cases, Hinst, Hhash, String.eqb_refl.
  reflexivity.
Qed.


End GrInstaller.

(* ===================================================================== *)
(** * Installer (myne.py)                                                 *)
(* ===================================================================== *)

Section MyneInstaller.
Import Py Myne.
Variable E : env.

Lemma extend_extend (s : state) (a b : list event) :
  myne_extend (myne_extend s a) b = myne_extend s (a ++ b).
Proof. unfold myne_extend. cbn. now rewrite <- app_assoc. Qed.

Lemma log_run (l : level) (msg : string) (s : state) :
  log l msg s = (Ret tt, myne_extend s [EvLog l msg]).
Proof. reflexivity. Qed.

(** The decorator, by what the decorated call does. *)
Lemma log_decorator_cases {A} (name : string) (func : M state A) (s : state) :
  log_decorator name func s =
    match func (myne_extend s [calling name]) with
    | (Ret a, s1) => (Ret a, myne_extend s1 [returned name])
    | (Raise e, s1) =>
        if is_Exception e then (Raise e, myne_extend s1 [raised name])
        else (Raise e, s1)
    | (Timeout, s1) => (Timeout, s1)
    end.
Proof.
  unfold log_decorator, bind at 1. rewrite log_run.
  unfold try_except, bind at 1. fold (calling name).
  destruct (func (myne_extend s [calling name])) as [[a|e|] s1];
    cbn; try reflexivity.
  destruct (is_Exception e); reflexivity.
Qed.

Lemma yields_log_decorator {A} (ok : A -> bool) (name : string)
    (func : M state A) :
  yields ok func -> yields ok (log_decorator name func).
Proof.
  intros Hf s. rewrite log_decorator_cases.
  specialize (Hf (myne_extend s [calling name])).
  destruct (func _) as [[a|e|] s1]; cbn in *; [exact Hf | | exact Hf].
  now rewrite Hf.
Qed.

Lemma myne_hash_cases (path : string) (s : state) :
  calculate_file_hash E path s =
    match fs s !! path with
    | Some (File data) =>
        (Ret (sha256 E data),
         myne_extend s [calling "calculate_file_hash";
                        returned "calculate_file_hash"])
    | Some Opaque =>
        (Raise OSError,
         myne_extend s [calling "calculate_file_hash";
                        raised "calculate_file_hash"])
    | None =>
        (Raise FileNotFoundError,
         myne_extend s [calling "calculate_file_hash";
                        raised "calculate_file_hash"])
    end.
Proof.
  unfold calculate_file_hash. rewrite log_decorator_cases.
  unfold bind, read_file. cbn [myne_extend fs].
  destruct (fs s !! path) as [[data|]|]; unfold ret; cbn [is_Exception];
    rewrite ?extend_extend; reflexivity.
Qed.

Lemma yields_mlog (l : level) (msg : string) : yields any (log l msg).
Proof. intros s. reflexivity. Qed.

Lemma yields_run_cp (src dst : string) : yields any (run_cp E src dst).
Proof.
  intros s. unfold run_cp.
  destruct (fs s !! src) as [[data|]|]; try reflexivity.
  destruct (can_write E dst); reflexivity.
Qed.

Lemma yields_mwrite_file (path data : string) :
  yields any (write_file E path data).
Proof. intros s. unfold write_file. destruct (can_write E path); reflexivity. Qed.

Lemma yields_run_systemctl (argv : list string) :
  yields any (run_systemctl E argv).
Proof.
  intros s. unfold run_systemctl. destruct (systemctl_found E); reflexivity.
Qed.

Lemma yields_mperform_install : yields (Bool.eqb true) (perform_install E).
Proof.
  unfold perform_install.
  repeat (apply yields_bind;
          [first [apply yields_mlog | apply yields_run_cp
                 | apply yields_mwrite_file | apply yields_run_systemctl]
          | intros _]).
  now apply yields_ret.
Qed.

Lemma myne_up_to_date_cases (current : string) (s : state) :
  up_to_date E current s =
    match fs s !! LOCAL_SCRIPT_PATH with
    | Some (File installed) =>
        (Ret (String.eqb current (sha256 E installed)),
         myne_extend s [calling "calculate_file_hash";
                        returned "calculate_file_hash"])
    | Some Opaque =>
        (Raise OSError,
         myne_extend s [calling "calculate_file_hash";
                        raised "calculate_file_hash"])
    | None => (Ret false, s)
    end.
Proof.
  unfold up_to_date, bind at 1, os_path_exists.
  destruct (fs s !! LOCAL_SCRIPT_PATH) as [[installed|]|] eqn:Ht.
  - rewrite bool_decide_true by eauto.
    unfold bind. now rewrite myne_hash_cases, Ht.
  - rewrite bool_decide_true by eauto.
    unfold bind. now rewrite myne_hash_cases, Ht.
  - rewrite bool_decide_false by (intros [? ?]; discriminate). reflexivity.
Qed.

Lemma yields_myne_install_body : yields any (install_body E).
Proof.
  intros s. unfold install_body, bind at 1. rewrite myne_hash_cases.
  destruct (fs s !! script_path E) as [[own|]|]; try reflexivity.
  unfold bind at 1. rewrite myne_up_to_date_cases. cbn [myne_extend fs].
  destruct (fs s !! LOCAL_SCRIPT_PATH) as [[installed|]|]; try reflexivity.
  - destruct (String.eqb _ _); [reflexivity |].
    apply (yields_any _ _ yields_mperform_install).
  - apply (yields_any _ _ yields_mperform_install).
Qed.

Lemma myne_install_up_to_date (s : state) (own installed : string) :
  fs s !! script_path E = Some (File own) ->
  fs s !! LOCAL_SCRIPT_PATH = Some (File installed) ->
  sha256 E own = sha256 E installed ->
  install_body E s =
    (Ret false,
     myne_extend s [calling "calculate_file_hash";
                    returned "calculate_file_hash";
                    calling "calculate_file_hash";
                    returned "calculate_file_hash";
                    already_installed]).
Proof.
  intros Hown Hinst Hhash. unfold install_body, bind at 1.
  rewrite myne_hash_cases, Hown.
  unfold bind at 1. rewrite myne_up_to_date_cases. cbn [myne_extend fs].
  rewrite Hinst, Hhash, String.eqb_refl.
  unfold bind. rewrite log_run. cbn [ret]. now rewrite !extend_extend.
Qed.


End MyneInstaller.

(* ===================================================================== *)
(** * Installer outcomes                                                  *)
(* ===================================================================== *)

Section InstallerOutcomes.
Import Py.

(** C3: with the target present and its hash equal to that of the
    running script, both installers answer [False] ("not needed") and
    leave the file system, the clock and the service manager alone: the
    state differs only by log records. *)
Theorem C3_install_not_needed
    (Eg : Gr.env) (sg : Gr.state) (Em : Myne.env) (sm : Myne.state)
    (own_g installed_g own_m installed_m : string) :
  Gr.fs sg !! Gr.script_path Eg = Some (File own_g) ->
  Gr.fs sg !! Gr.target_path = Some (File installed_g) ->
  Gr.sha256 Eg own_g = Gr.sha256 Eg installed_g ->
  Myne.fs sm !! Myne.script_path Em = Some (File own_m) ->
  Myne.fs sm !! Myne.LOCAL_SCRIPT_PATH = Some (File installed_m) ->
  Myne.sha256 Em own_m = Myne.sha256 Em installed_m ->
  Gr.install_self Eg sg =
    (Ret false,
     gr_extend sg
       [Gr.EvLog DEBUG "Script already installed and up to date."]) /\
  Myne.install_self Em sm =
    (Ret false,
     myne_extend sm
       [calling "install_self";
        calling "calculate_file_hash"; returned "calculate_file_hash";
        calling "calculate_file_hash"; returned "calculate_file_hash";
        already_installed;
        returned "install_self"]).
Proof.
  intros Hg1 Hg2 Hg3 Hm1 Hm2 Hm3. split.
  - unfold Gr.install_self, try_except.
    now rewrite (gr_install_up_to_date Eg sg own_g installed_g).
  - unfold Myne.install_self. rewrite log_decorator_cases.
    unfold try_except.
    rewrite (myne_install_up_to_date Em _ own_m installed_m); try assumption.
    now rewrite !extend_extend.
Qed.



End InstallerOutcomes.

(* ===================================================================== *)
(** * Worker supervisor (myne.py)                                         *)
(* ===================================================================== *)

Section Supervisor.
Import Py Myne.
Variable E : env.

Lemma extend_is_advance (s : state) (evs : list event) :
  myne_extend s evs = myne_advance s 0 evs.
Proof. reflexivity. Qed.

Lemma advance_advance (s : state) (a b : nat) (e1 e2 : list event) :
  myne_advance (myne_advance s a e1) b e2 = myne_advance s (b + a) (e1 ++ e2).
Proof.
  unfold myne_advance. cbn. now rewrite <- app_assoc, Nat.add_assoc.
Qed.

Lemma advance_nil (s : state) : myne_advance s 0 [] = s.
Proof. destruct s. unfold myne_advance. cbn. now rewrite app_nil_r. Qed.

(** One liveness check takes one instant and never fails while [pgrep]
    is there. *)
Lemma check_run (s : state) :
  pgrep_at E (clock s) <> PgrepMissing ->
  check_xmrig_running E s =
    (Ret (running_at E (clock s)),
     myne_advance s 1 (liveness_events E (clock s))).
Proof.
  intros Hp. unfold check_xmrig_running. rewrite log_decorator_cases.
  unfold running_at, liveness_events, pgrep_code.
  destruct (pgrep_at E (clock s)) as [rc out|] eqn:Hpg; [| contradiction].
  unfold run_pgrep, tick, emit, bind. cbn [myne_extend clock fs trace].
  rewrite Hpg. cbn. unfold myne_advance, myne_extend. cbn [fs clock trace].
  rewrite <- !app_assoc. reflexivity.
Qed.

Lemma run_xmrig_command_run (command : string) (s : state) :
  popen_at E (clock s) <> None ->
  run_xmrig_command E command s =
    (Ret (popen_pid E (clock s)),
     myne_advance s 1
       [calling "run_xmrig_command"; EvSpawn command (popen_pid E (clock s));
        returned "run_xmrig_command"]).
Proof.
  intros Hp. unfold run_xmrig_command. rewrite log_decorator_cases.
  unfold popen_pid.
  destruct (popen_at E (clock s)) as [pid|] eqn:Hpo; [| contradiction].
  unfold tick, emit, bind. cbn [myne_extend clock fs trace].
  rewrite Hpo. cbn. unfold myne_advance, myne_extend. cbn [fs clock trace].
  rewrite <- !app_assoc. reflexivity.
Qed.

(** Every command is spawned and verified, whatever the verifications
    before it found. *)
Lemma spawn_all_run (commands : list string) (s : state) :
  pgrep_present E -> popen_works E ->
  spawn_all E commands s =
    (Ret tt,
     myne_advance s (2 * List.length commands)
       (spawn_events E (clock s) commands)).
Proof.
  intros Hpg Hpo. revert s.
  induction commands as [|command rest IH]; intros s.
  - cbn. now rewrite advance_nil.
  - unfold spawn_all in *. cbn [for_each].
    unfold bind at 1. unfold bind at 1.
    rewrite run_xmrig_command_run by apply Hpo.
    unfold bind at 1. rewrite log_run, extend_is_advance, advance_advance.
    unfold bind at 1. rewrite check_run by apply Hpg.
    rewrite advance_advance. cbn [myne_advance clock Nat.add].
    destruct (running_at E (S (clock s))) eqn:Hrun; cbn [negb].
    + unfold ret. rewrite IH, advance_advance. cbn [myne_advance clock].
      cbn [spawn_events]. rewrite Hrun. cbn [Nat.add].
      f_equal; f_equal;
        first [cbn [List.length]; lia | rewrite <- !app_assoc; reflexivity].
    + rewrite log_run, extend_is_advance, advance_advance.
      rewrite IH, advance_advance. cbn [myne_advance clock].
      cbn [spawn_events]. rewrite Hrun. cbn [Nat.add].
      f_equal; f_equal;
        first [cbn [List.length]; lia | rewrite <- !app_assoc; reflexivity].
Qed.

Lemma spawned_app (a b : list event) : spawned (a ++ b) = spawned a ++ spawned b.
Proof. unfold spawned. apply flat_map_app. Qed.

Lemma pgrep_queries_app (a b : list event) :
  pgrep_queries (a ++ b) = (pgrep_queries a + pgrep_queries b)%nat.
Proof. unfold pgrep_queries. now rewrite List.filter_app, List.length_app. Qed.

Lemma failures_reported_app (a b : list event) :
  failures_reported (a ++ b) = (failures_reported a + failures_reported b)%nat.
Proof. unfold failures_reported. now rewrite List.filter_app, List.length_app. Qed.

Lemma spawned_spawn_events (commands : list string) (k : nat) :
  spawned (spawn_events E k commands) = commands.
Proof.
  revert k. induction commands as [|command rest IH]; intros k; [reflexivity |].
  cbn [spawn_events]. rewrite !spawned_app, IH.
  destruct (running_at E (S k)); reflexivity.
Qed.

Lemma pgrep_queries_spawn_events (commands : list string) (k : nat) :
  pgrep_queries (spawn_events E k commands) = List.length commands.
Proof.
  revert k. induction commands as [|command rest IH]; intros k; [reflexivity |].
  cbn [spawn_events]. rewrite !pgrep_queries_app, IH.
  destruct (running_at E (S k)); reflexivity.
Qed.

Lemma failures_spawn_events (commands : list string) (k : nat) :
  failures_reported (spawn_events E k commands) =
    failed_verifications E k (List.length commands).
Proof.
  revert k. induction commands as [|command rest IH]; intros k; [reflexivity |].
  cbn [spawn_events List.length failed_verifications].
  rewrite !failures_reported_app, IH.
  destruct (running_at E (S k)); reflexivity.
Qed.

Lemma length_create_xmrig_commands (plan : Z * Z * Z) :
  List.length
    (let '(main_threads, limited_threads, free_threads) := plan in
     create_xmrig_commands main_threads limited_threads free_threads)
  = positive_roles plan.
Proof.
  destruct plan as [[m l] f]. unfold create_xmrig_commands, positive_roles.
  destruct (m >? 0)%Z, (l >? 0)%Z, (f >? 0)%Z; reflexivity.
Qed.

(** One reconcile when nothing is observed running. *)
Lemma reconcile_run (commands : list string) (s : state) :
  pgrep_present E -> popen_works E ->
  running_at E (clock s) = false ->
  reconcile E commands s =
    (Ret tt,
     myne_advance s (S (2 * List.length commands))
       (liveness_events E (clock s)
          ++ [EvLog INFO "xmrig is not running, attempting to start..."]
          ++ spawn_events E (S (clock s)) commands)).
Proof.
  intros Hpg Hpo Hrun. unfold reconcile, bind at 1.
  rewrite check_run by apply Hpg. rewrite Hrun. cbn [negb].
  unfold bind. rewrite log_run, extend_is_advance, advance_advance.
  rewrite (spawn_all_run commands _ Hpg Hpo), advance_advance.
  cbn [myne_advance clock Nat.add].
  f_equal; f_equal; first [lia | rewrite <- !app_assoc; reflexivity].
Qed.

(** C6: when the liveness check finds nothing running, one reconcile
    spawns exactly the commands of the plan, one for each role with a
    positive thread count, in order; it queries the process table once
    after every spawn; every verification that fails leaves an error
    record and nothing else: the spawning goes on, reconcile returns, and
    the loop moves on to its sleep. *)
Theorem C6_reconcile_spawns_all (plan : Z * Z * Z) (s : state) :
  pgrep_present E -> popen_works E ->
  running_at E (clock s) = false ->
  let commands :=
    (let '(main_threads, limited_threads, free_threads) := plan in
     create_xmrig_commands main_threads limited_threads free_threads) in
  exists (evs : list event) (s' : state),
    reconcile E commands s = (Ret tt, s') /\
    s' = myne_advance s (S (2 * List.length commands)) evs /\
    evs = liveness_events E (clock s)
            ++ [EvLog INFO "xmrig is not running, attempting to start..."]
            ++ spawn_events E (S (clock s)) commands /\
    spawned evs = commands /\
    List.length commands = positive_roles plan /\
    pgrep_queries evs = S (List.length commands) /\
    failures_reported evs =
      failed_verifications E (S (clock s)) (List.length commands) /\
    forall fuel,
      supervise E (S fuel) commands s =
        (interruptible_sleep E ;> supervise E fuel commands) s'.
Proof.
  intros Hpg Hpo Hrun commands.
  eexists _, _. split; [apply (reconcile_run commands s Hpg Hpo Hrun) |].
  split; [reflexivity |]. split; [reflexivity |].
  rewrite !spawned_app, !pgrep_queries_app, !failures_reported_app.
  rewrite spawned_spawn_events, pgrep_queries_spawn_events,
    failures_spawn_events.
  repeat split.
  - apply length_create_xmrig_commands.
  - intros fuel. cbn [supervise]. unfold bind at 1.
    now rewrite (reconcile_run commands s Hpg Hpo Hrun).
Qed.

(** ** Kill-all, interrupt and the top-level handler *)

Lemma yields_tick : yields any tick.
Proof. intros s. reflexivity. Qed.

Lemma yields_run_pgrep : yields any (run_pgrep E).
Proof.
  unfold run_pgrep. apply yields_bind; [apply yields_tick | intros k].
  destruct (pgrep_at E k); [| now apply yields_raise].
  apply yields_bind; [intros s; reflexivity | intros _; now apply yields_ret].
Qed.

Lemma yields_run_kill (pid : string) : yields any (run_kill E pid).
Proof.
  unfold run_kill. apply yields_bind; [apply yields_tick | intros k].
  apply yields_bind; [intros s; reflexivity | intros _].
  destruct (kill_at E k pid); [now apply yields_ret | now apply yields_raise].
Qed.

(** Kill-all ends, with a value or with an [Exception]. *)
Lemma yields_kill_xmrig : yields any (kill_xmrig E).
Proof.
  unfold kill_xmrig. apply yields_log_decorator.
  apply yields_bind; [apply yields_run_pgrep | intros result].
  destruct (fst result =? 0)%Z; [| now apply yields_ret].
  apply yields_for_each. intros pid.
  apply yields_bind; [apply yields_run_kill | intros _; apply yields_mlog].
Qed.



Lemma killed_kill_events (pids : list string) : killed (kill_events pids) = pids.
Proof.
  induction pids as [|pid rest IH]; [reflexivity |].
  change (kill_events (pid :: rest))
    with ([EvKill pid true;
           EvLog INFO ("Killed xmrig process with PID: " +:+ pid)]
            ++ kill_events rest).
  unfold killed in *. rewrite flat_map_app, IH. reflexivity.
Qed.

Lemma asyncio_sleep_cases (secs : Z) (s : state) :
  asyncio_sleep E secs s =
    (if interrupt_at E (clock s) then Raise KeyboardInterrupt else Ret tt,
     myne_advance s 1 [EvSleep secs]).
Proof.
  unfold asyncio_sleep, tick, emit, bind. cbn [fs clock trace].
  destruct (interrupt_at E (clock s)); reflexivity.
Qed.

(** The sleep between two reconciles, and what an interrupt does. *)
Lemma interruptible_sleep_cases (s : state) :
  interruptible_sleep E s =
    if interrupt_at E (clock s) then
      match kill_xmrig E (myne_advance s 1 interrupted) with
      | (Ret _, s2) => (Raise (SystemExit 0), s2)
      | (Raise e, s2) => (Raise e, s2)
      | (Timeout, s2) => (Timeout, s2)
      end
    else (Ret tt, myne_advance s 1 [EvSleep SLEEP_INTERVAL]).
Proof.
  unfold interruptible_sleep, try_except. rewrite asyncio_sleep_cases.
  destruct (interrupt_at E (clock s)); [| reflexivity].
  cbn [dispatch is_KeyboardInterrupt].
  unfold bind at 1. rewrite log_run, extend_is_advance, advance_advance.
  cbn [Nat.add app]. fold interrupted.
  unfold bind, sys_exit, raise.
  destruct (kill_xmrig E _) as [[[]|e|] s2]; reflexivity.
Qed.






(** [main], by what the body of its [try] does. *)
Lemma main_cases (fuel : nat) (s : state) :
  main E fuel s =
    match main_body E fuel (myne_extend s [calling "main"]) with
    | (Ret _, s1) => (Ret tt, myne_extend s1 [returned "main"])
    | (Raise e, s1) =>
        if is_Exception e then
          match kill_xmrig E (myne_extend s1 [error_in_main]) with
          | (Ret _, s2) => (Raise (SystemExit 1), s2)
          | (Raise e', s2) => (Raise e', myne_extend s2 [raised "main"])
          | (Timeout, s2) => (Timeout, s2)
          end
        else (Raise e, s1)
    | (Timeout, s1) => (Timeout, s1)
    end.
Proof.
  unfold main. rewrite log_decorator_cases. unfold try_except.
  destruct (main_body E fuel _) as [[[]|e|] s1]; try reflexivity.
  cbn [dispatch except_Exception].
  destruct (is_Exception e) eqn:He; [| cbn; now rewrite He].
  unfold on_error, bind at 1. rewrite log_run. fold error_in_main.
  unfold bind, sys_exit, raise.
  pose proof (yields_kill_xmrig (myne_extend s1 [error_in_main])) as Hy.
  destruct (kill_xmrig E _) as [[[]|e'|] s2]; cbn in Hy; try reflexivity.
  cbn. now rewrite Hy.
Qed.


End Supervisor.


(* ===================================================================== *)
(** * Worked instances                                                    *)
(* ===================================================================== *)

(** The sentinel of [gr_host] is 36 h less 10 min old at instant 0: two
    polls find it fresh, the third finds it stale; the loop then writes
    the power-off command once and returns. *)
Lemma C1_failsafe_exactly_once_witness :
  quiet gr_host 0 2 = true /\
  triggered gr_host 2 = true /\
  exists s',
    Gr.watch_loop gr_host 5 gr_bare = (Py.Ret tt, s') /\
    failsafe_runs (Gr.trace s') = 1%nat /\
    sysrq_writes (Gr.trace s') = ["o"].
Proof.
  split; [reflexivity |]. split; [reflexivity |].
  destruct (C1_failsafe_exactly_once gr_host 2 gr_bare eq_refl) as [_ Hfire].
  destruct (Hfire eq_refl 5%nat ltac:(lia))
    as [s0 [s' [_ [Hloop [Hshut [_ [Hruns Hwrites]]]]]]].
  exists s'. rewrite Hloop, Hshut. split; [reflexivity |].
  split; [exact Hruns | exact Hwrites].
Defined.

(** Installed and current: both installers answer [False] and only log. *)
Lemma C3_install_not_needed_witness :
  fst (Gr.install_self gr_host gr_installed) = Py.Ret false /\
  Gr.fs (snd (Gr.install_self gr_host gr_installed)) = Gr.fs gr_installed /\
  fst (Myne.install_self myne_host myne_installed) = Py.Ret false /\
  Myne.fs (snd (Myne.install_self myne_host myne_installed)) =
    Myne.fs myne_installed.
Proof.
  destruct (C3_install_not_needed gr_host gr_installed myne_host myne_installed
              sample_code sample_code sample_code sample_code
              eq_refl eq_refl eq_refl eq_refl eq_refl eq_refl) as [Hg Hm].
  rewrite Hg, Hm. repeat split.
Defined.

(** Four cores: three threads for the main role, one limited, none free;
    nothing is running and no verification succeeds, yet both commands
    are spawned and the reconcile returns. *)
Lemma C6_reconcile_spawns_all_witness :
  exists s',
    Myne.reconcile myne_host
      [Myne.main_command 3; Myne.limited_command] myne_bare = (Py.Ret tt, s') /\
    spawned (Myne.trace s') = [Myne.main_command 3; Myne.limited_command] /\
    failures_reported (Myne.trace s') = 2%nat.
Proof.
  destruct (C6_reconcile_spawns_all myne_host
              (Myne.calculate_threads_and_limits 4) myne_bare)
    as [evs [s' [Hrun [Hs' [_ [Hspawned [_ [_ [Hfail _]]]]]]]]].
  - intros k. discriminate.
  - intros k. discriminate.
  - reflexivity.
  - exists s'. split; [exact Hrun |]. subst s'. cbn [Myne.trace myne_advance].
    split; [exact Hspawned | exact Hfail].
Defined.

(** Ten minutes after boot the watchdog sleeps 1200 seconds, once, and
    then polls. *)
Lemma C9_warm_up_delay_witness :
  exists s_w,
    Gr.main gr_host 1 gr_installed = Gr.watch_loop gr_host 1 s_w /\
    Gr.trace s_w =
      [Gr.EvLog Py.DEBUG "Script already installed and up to date.";
       Gr.EvLog Py.INFO
         "System uptime is less than 30 Minutes (600 seconds). Delaying file check.";
       Gr.EvSleep 1200].
Proof.
  destruct (C9_warm_up_delay gr_host 0 gr_installed
              (gr_extend gr_installed
                 [Gr.EvLog Py.DEBUG "Script already installed and up to date."])
              ("up 10 minutes" +:+ newline) 600)
    as [s_w [Hmain [_ [Htrace _]]]].
  - vm_compute. reflexivity.
  - reflexivity.
  - vm_compute. reflexivity.
  - exists s_w. split; [exact Hmain |]. rewrite Htrace. reflexivity.
Defined.

(** One day and five minutes after boot the sample is 300 seconds, and
    the watchdog takes a warm-up delay of 1500 seconds. *)
Lemma C10_uptime_sample_drops_days_witness :
  Gr.uptime_p gr_host_next_day = Some ("up 1 day, 5 minutes" +:+ newline) /\
  fst (Gr.get_system_uptime gr_host_next_day gr_bare) = Py.Ret (Some 300%Z) /\
  Gr.trace (snd (Gr.warm_up gr_host_next_day gr_bare)) =
    [Gr.EvLog Py.INFO
       "System uptime is less than 30 Minutes (300 seconds). Delaying file check.";
     Gr.EvSleep 1500].
Proof.
  split; [reflexivity |].
  destruct (C10_uptime_sample_drops_days gr_host_next_day 0 1 0 5 gr_bare
              ltac:(lia) eq_refl) as [Hsample Hwarm].
  rewrite Hsample, (Hwarm eq_refl ltac:(lia)). split; reflexivity.
Defined.


(* ===================================================================== *)
(** * Further properties: the installer of gr.py                          *)
(* ===================================================================== *)

Section GrInstallerMore.
Import Py Gr.
Variable E : env.

Lemma gr_outdated_up_to_date (s : state) (own : string) :
  gr_outdated E s own ->
  up_to_date E (sha256 E own) s = (Ret false, s).
Proof.
  intros [Hnone | [installed [Hsome Hne]]]; rewrite up_to_date_cases.
  - now rewrite Hnone.
  - rewrite Hsome. now apply String.eqb_neq in Hne as ->.
Qed.

Lemma gr_install_body_outdated (s : state) (own : string) :
  fs s !! script_path E = Some (File own) ->
  gr_outdated E s own ->
  install_body E s = perform_install E s.
Proof.
  intros Hown Hout. unfold install_body, bind at 1.
  rewrite calculate_file_hash_cases, Hown.
  unfold bind at 1. now rewrite (gr_outdated_up_to_date s own Hout).
Qed.

(** The installation proper, step by step: the copy, then the service
    file, then the service manager. *)
Lemma perform_install_cases (s : state) (own : string) :
  fs s !! script_path E = Some (File own) ->
  can_write E target_path = true ->
  perform_install E s =
    let s1 := {| fs := <[target_path := File own]> (fs s); clock := clock s;
                 trace := trace s ++
                   [EvCopy (script_path E) target_path;
                    EvLog DEBUG ("Script copied to " +:+ target_path)] |} in
    if can_write E service_path then
      let s2 := {| fs := <[service_path := File (service_content target_path)]>
                           (fs s1);
                   clock := clock s;
                   trace := trace s1 ++
                     [EvWrite service_path;
                      EvLog DEBUG "Systemd service file created/updated."] |} in
      if systemctl_found E
      then (Ret true,
            {| fs := fs s2; clock := clock s;
               trace := trace s ++ gr_install_events E |})
      else (Raise FileNotFoundError, s2)
    else (Raise OSError, s1).
Proof.
  intros Hown Hcw.
  unfold perform_install, shutil_copy, write_file, subprocess_run, log, emit,
    read_file, bind.
  rewrite Hown, Hcw. cbv beta iota. cbn [fs clock trace].
  destruct (can_write E service_path); [| now rewrite <- app_assoc].
  cbv beta iota. cbn [fs clock trace].
  destruct (systemctl_found E); cbv beta iota; cbn [fs clock trace raise ret].
  - unfold gr_install_events. now rewrite <- !app_assoc.
  - now rewrite <- !app_assoc.
Qed.

Lemma gr_install_self_cases (s : state) :
  install_self E s =
    match install_body E s with
    | (Ret b, s1) => (Ret b, s1)
    | (Raise e, s1) =>
        (Ret false, gr_extend s1 [EvLog ERROR "Error during installation"])
    | (Timeout, s1) => (Timeout, s1)
    end.
Proof.
  unfold install_self, try_except.
  pose proof (yields_install_body E s) as Hy.
  destruct (install_body E s) as [[b|e|] s1]; cbn in Hy; try reflexivity.
  cbn [dispatch except_Exception]. now rewrite Hy.
Qed.

Lemma gr_outdated_paths (s : state) (own : string) :
  fs s !! script_path E = Some (File own) ->
  gr_outdated E s own ->
  script_path E <> target_path.
Proof.
  intros Hown [Hnone | [installed [Hsome Hne]]] Heq; rewrite Heq in Hown.
  - congruence.
  - rewrite Hsome in Hown. injection Hown as ->. contradiction.
Qed.

Lemma target_not_service : target_path <> service_path.
Proof. discriminate. Qed.

(** Once the copy has been made, the installer finds the target current,
    whatever became of the later steps. *)
Lemma gr_current_after_copy (s1 : state) (own : string) :
  fs s1 !! script_path E = Some (File own) ->
  fs s1 !! target_path = Some (File own) ->
  install_self E s1 =
    (Ret false,
     gr_extend s1 [EvLog DEBUG "Script already installed and up to date."]).
Proof.
  intros Hs Ht. rewrite gr_install_self_cases.
  now rewrite (gr_install_up_to_date E s1 own own Hs Ht eq_refl).
Qed.

(** A complete installation and the run after it. *)
Lemma gr_install_complete (s : state) (own : string) :
  fs s !! script_path E = Some (File own) ->
  gr_outdated E s own ->
  can_write E target_path = true ->
  can_write E service_path = true ->
  systemctl_found E = true ->
  script_path E <> service_path ->
  exists s1,
    install_self E s = (Ret true, s1) /\
    fs s1 = <[service_path := File (service_content target_path)]>
              (<[target_path := File own]> (fs s)) /\
    fs s1 !! target_path = Some (File own) /\
    clock s1 = clock s /\
    trace s1 = trace s ++ gr_install_events E /\
    install_self E s1 =
      (Ret false,
       gr_extend s1 [EvLog DEBUG "Script already installed and up to date."]).
Proof.
  intros Hown Hout Hct Hcs Hsys Hne.
  pose proof (gr_outdated_paths s own Hown Hout) as Hst.
  rewrite gr_install_self_cases, (gr_install_body_outdated s own Hown Hout).
  rewrite (perform_install_cases s own Hown Hct). cbv zeta. rewrite Hcs, Hsys.
  eexists. split; [reflexivity |]. cbn [fs clock trace].
  assert (Ht : (<[service_path := File (service_content target_path)]>
                  (<[target_path := File own]> (fs s)) : gmap string node)
                 !! target_path = Some (File own)).
  { rewrite lookup_insert_ne by (apply not_eq_sym, target_not_service).
    apply lookup_insert_eq. }
  repeat split; [exact Ht |].
  apply (gr_current_after_copy _ own); cbn [fs]; [| exact Ht].
  rewrite lookup_insert_ne by (apply not_eq_sym; exact Hne).
  rewrite lookup_insert_ne by (apply not_eq_sym; exact Hst).
  exact Hown.
Qed.

(** X1. Self-heal: with the target absent or different, and every step
    able to succeed, [install_self] returns [True]; the target then holds
    the bytes of the running script, the service file holds the unit text,
    the service manager was asked to reload, enable and start, in that
    order; a second run finds nothing to do. *)
Theorem gr_install_then_current (s : state) (own : string) :
  fs s !! script_path E = Some (File own) ->
  gr_outdated E s own ->
  can_write E target_path = true ->
  can_write E service_path = true ->
  systemctl_found E = true ->
  script_path E <> service_path ->
  exists s1,
    install_self E s = (Ret true, s1) /\
    fs s1 = <[service_path := File (service_content target_path)]>
              (<[target_path := File own]> (fs s)) /\
    fs s1 !! target_path = Some (File own) /\
    clock s1 = clock s /\
    trace s1 = trace s ++ gr_install_events E /\
    install_self E s1 =
      (Ret false,
       gr_extend s1 [EvLog DEBUG "Script already installed and up to date."]).
Proof. exact (gr_install_complete s own). Qed.

(** X2. Once the copy has succeeded, a later run never completes the
    installation: whatever the first run returned, the second finds the
    target current, returns [False] and does nothing. In particular,
    when the service file could not be written the first run returns
    [False] and the service file is still as it was; the second run does
    not write it either. *)
Theorem gr_second_run_does_nothing (s : state) (own : string) (b : bool)
    (s1 : state) :
  fs s !! script_path E = Some (File own) ->
  gr_outdated E s own ->
  can_write E target_path = true ->
  script_path E <> service_path ->
  install_self E s = (Ret b, s1) ->
  install_self E s1 =
    (Ret false,
     gr_extend s1 [EvLog DEBUG "Script already installed and up to date."]) /\
  fs s1 !! target_path = Some (File own) /\
  (can_write E service_path = false ->
   b = false /\ fs s1 !! service_path = fs s !! service_path) /\
  (systemctl_found E = false ->
   b = false /\ List.filter (fun ev => match ev with EvRun _ => true | _ => false end)
                  (trace s1) =
                List.filter (fun ev => match ev with EvRun _ => true | _ => false end)
                  (trace s)).
Proof.
  intros Hown Hout Hct Hne.
  pose proof (gr_outdated_paths s own Hown Hout) as Hst.
  rewrite gr_install_self_cases, (gr_install_body_outdated s own Hown Hout).
  rewrite (perform_install_cases s own Hown Hct). cbv zeta.
  assert (Ht1 : (<[target_path := File own]> (fs s) : gmap string node)
                  !! target_path = Some (File own))
    by apply lookup_insert_eq.
  assert (Hs1 : (<[target_path := File own]> (fs s) : gmap string node)
                  !! script_path E = Some (File own))
    by (rewrite lookup_insert_ne by (apply not_eq_sym; exact Hst); exact Hown).
  assert (Ht2 : (<[service_path := File (service_content target_path)]>
                   (<[target_path := File own]> (fs s)) : gmap string node)
                  !! target_path = Some (File own))
    by (rewrite lookup_insert_ne by (apply not_eq_sym, target_not_service);
        exact Ht1).
  assert (Hs2 : (<[service_path := File (service_content target_path)]>
                   (<[target_path := File own]> (fs s)) : gmap string node)
                  !! script_path E = Some (File own))
    by (rewrite lookup_insert_ne by (apply not_eq_sym; exact Hne); exact Hs1).
  destruct (can_write E service_path) eqn:Hcs;
    [destruct (systemctl_found E) eqn:Hsys |];
    intros [= <- <-]; cbn [fs clock trace gr_extend].
  - split; [apply (gr_current_after_copy _ own); assumption |].
    split; [exact Ht2 |]. split; discriminate.
  - split; [apply (gr_current_after_copy _ own); assumption |].
    split; [exact Ht2 |]. split; [discriminate |]. intros _.
    split; [reflexivity |].
    rewrite <- !app_assoc, List.filter_app. cbn. now rewrite app_nil_r.
  - split; [apply (gr_current_after_copy _ own); assumption |].
    split; [exact Ht1 |]. split.
    + intros _. split; [reflexivity |].
      apply lookup_insert_ne, target_not_service.
    + intros _. split; [reflexivity |].
      rewrite <- !app_assoc, List.filter_app. cbn. now rewrite app_nil_r.
Qed.

End GrInstallerMore.

(* ===================================================================== *)
(** * Further properties: the main function of gr.py                      *)
(* ===================================================================== *)

Section GrMainMore.
Import Py Gr.
Variable E : env.


(** The uptime sample, by what the command printed. *)
Lemma get_system_uptime_cases (s : state) :
  get_system_uptime E s =
    match uptime_p E with
    | Some out =>
        match parse_uptime out with
        | Some u => (Ret (Some u), s)
        | None =>
            (Ret None, gr_extend s [EvLog ERROR "Error in getting system uptime"])
        end
    | None =>
        (Ret None, gr_extend s [EvLog ERROR "Error in getting system uptime"])
    end.
Proof.
  unfold get_system_uptime, try_except, bind, check_output_uptime.
  destruct (uptime_p E) as [out|]; [| reflexivity].
  cbn [ret]. destruct (parse_uptime out); reflexivity.
Qed.

(** X3. Without an uptime sample the watchdog gives up: when the uptime
    command fails, or prints a count that [int] rejects, [main] logs the
    error and a critical record and returns; it never sleeps, never looks
    at the sentinel and never runs the fail-safe. *)
Theorem gr_main_without_uptime (fuel : nat) (s s1 : state) :
  install_self E s = (Ret false, s1) ->
  match uptime_p E with
  | Some out => parse_uptime out = None
  | None => True
  end ->
  main E fuel s =
    (Ret tt,
     gr_extend s1 [EvLog ERROR "Error in getting system uptime";
                   EvLog CRITICAL "Fatal error in main loop"]).
Proof.
  intros Hinst Hup. unfold main, try_except, bind at 1. rewrite Hinst.
  unfold bind at 1, warm_up, bind at 1. rewrite get_system_uptime_cases.
  assert (Hnone :
    match uptime_p E with
    | Some out =>
        match parse_uptime out with
        | Some u => (Ret (Some u), s1)
        | None =>
            (Ret None, gr_extend s1 [EvLog ERROR "Error in getting system uptime"])
        end
    | None =>
        (Ret None, gr_extend s1 [EvLog ERROR "Error in getting system uptime"])
    end = (Ret (None : option Z),
           gr_extend s1 [EvLog ERROR "Error in getting system uptime"])).
  { destruct (uptime_p E) as [out|]; [now rewrite Hup | reflexivity]. }
  rewrite Hnone. cbn. unfold gr_extend, log, emit. cbn.
  rewrite <- ?app_assoc. reflexivity.
Qed.


(** X5. Hand-over: on a host whose target is absent or different, where
    every step can succeed, [main] installs, logs that it exits, and
    returns: no uptime sample, no sleep, no look at the sentinel. *)
Theorem gr_main_installs_and_returns (fuel : nat) (s : state) (own : string) :
  fs s !! script_path E = Some (File own) ->
  gr_outdated E s own ->
  can_write E target_path = true ->
  can_write E service_path = true ->
  systemctl_found E = true ->
  script_path E <> service_path ->
  exists s',
    main E fuel s = (Ret tt, s') /\
    clock s' = clock s /\
    trace s' = trace s ++ gr_install_events E ++
      [EvLog INFO
         "Exiting after installation. Systemd will restart the script."] /\
    fs s' !! target_path = Some (File own).
Proof.
  intros Hown Hout Hct Hcs Hsys Hne.
  destruct (gr_install_complete E s own Hown Hout Hct Hcs Hsys Hne)
    as [s1 [Hinst [_ [Ht [Hc [Htr _]]]]]].
  unfold main, try_except, bind at 1. rewrite Hinst.
  eexists. split; [reflexivity |]. cbn [fs clock trace].
  rewrite Htr, <- app_assoc. repeat split; assumption.
Qed.

End GrMainMore.

(* ===================================================================== *)
(** * Further properties: the uptime sample of a young host               *)
(* ===================================================================== *)

Section UptimeTextMore.
Import Py.

Ltac lacks_all :=
  repeat (rewrite lacks_append
          || (progress (cbn [lacks]))
          || (rewrite lacks_dec by reflexivity)
          || (rewrite lacks_plural by reflexivity));
  reflexivity.

(** Without weeks and days in the text the two fields are all there is. *)
Lemma parse_uptime_hours_minutes (hours minutes : nat) :
  Gr.parse_uptime (uptime_pretty 0 0 hours minutes) =
    Some (Z.of_nat hours * 3600 + Z.of_nat minutes * 60)%Z.
Proof.
  unfold Gr.parse_uptime, uptime_pretty, component, newline.
  change (0 =? 0)%nat with true. cbv iota. cbn [app].
  set (ph := if (hours =? 1)%nat then "" else "s").
  set (pm := if (minutes =? 1)%nat then "" else "s").
  destruct (Nat.eqb_spec hours 0) as [->|_], (Nat.eqb_spec minutes 0) as [->|_];
    cbn [app String.concat].
  - reflexivity.
  - set (S := "up " +:+ _).
    assert (H1 : Gr.parse_field "hour" S = Some 0%Z)
      by (apply parse_field_absent; subst S ph pm; lacks_all).
    assert (H2 : Gr.parse_field "minute" S = Some (Z.of_nat minutes)).
    { replace S with
        ("up" +:+ String " "
           (dec minutes +:+ String " " ("minute" +:+ pm +:+ newline)))
        by (subst S; unfold newline; string_norm; reflexivity).
      apply parse_field_present; [discriminate | reflexivity | reflexivity]. }
    rewrite H1, H2. reflexivity.
  - set (S := "up " +:+ _).
    assert (H1 : Gr.parse_field "hour" S = Some (Z.of_nat hours)).
    { replace S with
        ("up" +:+ String " "
           (dec hours +:+ String " " ("hour" +:+ ph +:+ newline)))
        by (subst S; unfold newline; string_norm; reflexivity).
      apply parse_field_present; [discriminate | reflexivity | reflexivity]. }
    assert (H2 : Gr.parse_field "minute" S = Some 0%Z)
      by (apply parse_field_absent; subst S ph pm; lacks_all).
    rewrite H1, H2. reflexivity.
  - set (S := "up " +:+ _).
    assert (H1 : Gr.parse_field "hour" S = Some (Z.of_nat hours)).
    { replace S with
        ("up" +:+ String " "
           (dec hours +:+ String " "
              ("hour" +:+ ph +:+ ", " +:+ dec minutes +:+ " minute" +:+ pm
                 +:+ newline)))
        by (subst S; unfold newline; string_norm; reflexivity).
      apply parse_field_present; [discriminate | reflexivity | reflexivity]. }
    assert (H2 : Gr.parse_field "minute" S = Some (Z.of_nat minutes)).
    { replace S with
        (("up " +:+ dec hours +:+ " hour" +:+ ph +:+ ",") +:+ String " "
           (dec minutes +:+ String " " ("minute" +:+ pm +:+ newline)))
        by (subst S; unfold newline; string_norm; reflexivity).
      apply parse_field_present; [discriminate | reflexivity |].
      subst ph pm; lacks_all. }
    rewrite H1, H2. reflexivity.
Qed.

End UptimeTextMore.

Section GrUptimeMore.
Import Py Gr.
Variable E : env.

(** X6. For a host up less than a day (no weeks, no days in the text)
    the sample is the uptime of the text, hours * 3600 + minutes * 60,
    whether a field is missing, singular or plural; the warm-up then
    sleeps the rest of the first 1800 seconds, or not at all. *)
Theorem gr_uptime_exact_within_a_day (hours minutes : nat) (s : state) :
  uptime_p E = Some (uptime_pretty 0 0 hours minutes) ->
  let u := (Z.of_nat hours * 3600 + Z.of_nat minutes * 60)%Z in
  get_system_uptime E s = (Ret (Some u), s) /\
  warm_up E s =
    (Ret tt,
     {| fs := fs s;
        clock := if (u <? 1800)%Z then S (clock s) else clock s;
        trace := trace s ++
          (if (u <? 1800)%Z
           then [EvLog INFO
                   ("System uptime is less than 30 Minutes (" +:+ str u
                      +:+ " seconds). Delaying file check.");
                 EvSleep (1800 - u)]
           else []) |}).
Proof.
  intros Hout u.
  pose proof (parse_uptime_hours_minutes hours minutes) as Hp. fold u in Hp.
  split.
  - exact (get_system_uptime_sample E _ _ s Hout Hp).
  - exact (warm_up_run E _ _ s Hout Hp).
Qed.

End GrUptimeMore.

(* ===================================================================== *)
(** * Further properties: what a computation keeps, how it may end        *)
(* ===================================================================== *)

Section FrameFacts.
Import Py.
Context {St X : Type} (obs : St -> X).

Lemma keeps_ret {A} (a : A) : keeps obs (ret (St := St) a).
Proof. intros s. reflexivity. Qed.

Lemma keeps_raise {A} (e : exn) : keeps obs (raise (St := St) (A := A) e).
Proof. intros s. reflexivity. Qed.

Lemma keeps_timeout {A} : keeps obs (timeout (St := St) (A := A)).
Proof. intros s. reflexivity. Qed.

Lemma keeps_bind {A B} (m : M St A) (k : A -> M St B) :
  keeps obs m -> (forall a, keeps obs (k a)) -> keeps obs (bind m k).
Proof.
  intros Hm Hk s. specialize (Hm s). unfold bind.
  destruct (m s) as [[a|e|] s1]; cbn in *; [| exact Hm | exact Hm].
  now rewrite Hk.
Qed.

Lemma keeps_dispatch {A} (cs : list (clause St A)) (e : exn) :
  Forall (fun c => forall e', keeps obs (snd c e')) cs ->
  keeps obs (dispatch cs e).
Proof.
  induction 1 as [|[sel h] cs Hc _ IH]; [apply keeps_raise |].
  cbn [dispatch]. destruct (sel e); [apply Hc | exact IH].
Qed.

Lemma keeps_try {A} (m : M St A) (cs : list (clause St A)) :
  keeps obs m ->
  Forall (fun c => forall e', keeps obs (snd c e')) cs ->
  keeps obs (try_except m cs).
Proof.
  intros Hm Hcs s. specialize (Hm s). unfold try_except.
  destruct (m s) as [[a|e|] s1]; cbn in *; [exact Hm | | exact Hm].
  now rewrite (keeps_dispatch cs e Hcs s1).
Qed.

Lemma keeps_for_each {A} (l : list A) (body : A -> M St unit) :
  (forall x, keeps obs (body x)) -> keeps obs (for_each l body).
Proof.
  intros Hb. induction l as [|x l IH]; [apply keeps_ret |].
  cbn [for_each]. apply keeps_bind; [apply Hb | intros _; exact IH].
Qed.

(** What follows a computation and keeps [obs] does not show in [obs]. *)
Lemma keeps_after_bind {A B} (m : M St A) (k : A -> M St B) (s : St) :
  (forall a, keeps obs (k a)) -> obs (snd (bind m k s)) = obs (snd (m s)).
Proof.
  intros Hk. unfold bind. destruct (m s) as [[a|e|] s1]; cbn; try reflexivity.
  apply Hk.
Qed.

Lemma keeps_after_try {A} (m : M St A) (cs : list (clause St A)) (s : St) :
  Forall (fun c => forall e', keeps obs (snd c e')) cs ->
  obs (snd (try_except m cs s)) = obs (snd (m s)).
Proof.
  intros Hcs. unfold try_except.
  destruct (m s) as [[a|e|] s1]; cbn; try reflexivity.
  apply (keeps_dispatch cs e Hcs).
Qed.

End FrameFacts.

Section GracefulFacts.
Import Py.
Context {St : Type}.



End GracefulFacts.

(* ===================================================================== *)
(** * Further properties: the installer of myne.py                        *)
(* ===================================================================== *)

Section MyneInstallerMore.
Import Py Myne.
Variable E : env.

Lemma myne_install_self_cases (s : state) :
  install_self E s =
    match install_body E (myne_extend s [calling "install_self"]) with
    | (Ret b, s1) => (Ret b, myne_extend s1 [returned "install_self"])
    | (Raise e, s1) =>
        (Ret false,
         myne_extend s1 [installation_error; returned "install_self"])
    | (Timeout, s1) => (Timeout, s1)
    end.
Proof.
  unfold install_self. rewrite log_decorator_cases. unfold try_except.
  set (s0 := myne_extend s [calling "install_self"]).
  pose proof (yields_myne_install_body E s0) as Hy.
  destruct (install_body E s0) as [[b|e|] s1]; cbn in Hy; try reflexivity.
  cbn [dispatch except_Exception]. rewrite Hy.
  unfold bind. rewrite log_run. unfold ret. now rewrite extend_extend.
Qed.

Lemma myne_outdated_paths (s : state) (own : string) :
  fs s !! script_path E = Some (File own) ->
  myne_outdated E s own ->
  script_path E <> LOCAL_SCRIPT_PATH.
Proof.
  intros Hown [Hnone | [installed [Hsome Hne]]] Heq; rewrite Heq in Hown.
  - congruence.
  - rewrite Hsome in Hown. injection Hown as ->. contradiction.
Qed.

Lemma local_not_service : LOCAL_SCRIPT_PATH <> service_path.
Proof. discriminate. Qed.

(** What the comparison logs before an installation: one hash when the
    target is absent, two when it is there. *)
Lemma myne_install_body_outdated (s : state) (own : string) :
  fs s !! script_path E = Some (File own) ->
  myne_outdated E s own ->
  exists pre,
    (pre = hashed \/ pre = hashed ++ hashed) /\
    install_body E s = perform_install E (myne_extend s pre).
Proof.
  intros Hown Hout. unfold install_body, bind at 1.
  rewrite myne_hash_cases, Hown.
  unfold bind at 1. rewrite myne_up_to_date_cases. cbn [myne_extend fs].
  destruct Hout as [Hnone | [installed [Hsome Hne]]].
  - rewrite Hnone. exists hashed. split; [now left | reflexivity].
  - rewrite Hsome. apply String.eqb_neq in Hne as ->.
    exists (hashed ++ hashed). split; [now right |].
    now rewrite extend_extend.
Qed.

Lemma myne_perform_install_cases (s : state) (own : string) :
  fs s !! script_path E = Some (File own) ->
  can_write E LOCAL_SCRIPT_PATH = true ->
  perform_install E s =
    let s1 := {| fs := <[LOCAL_SCRIPT_PATH := File own]> (fs s);
                 clock := clock s;
                 trace := trace s ++
                   [EvCopy (script_path E) LOCAL_SCRIPT_PATH;
                    EvLog DEBUG ("Script copied to " +:+ LOCAL_SCRIPT_PATH)] |} in
    if can_write E service_path then
      let s2 := {| fs := <[service_path := File service_content]> (fs s1);
                   clock := clock s;
                   trace := trace s1 ++
                     [EvWrite service_path;
                      EvLog DEBUG "Systemd service file created/updated."] |} in
      if systemctl_found E
      then (Ret true,
            {| fs := fs s2; clock := clock s;
               trace := trace s ++ myne_install_events E |})
      else (Raise FileNotFoundError, s2)
    else (Raise OSError, s1).
Proof.
  intros Hown Hcw.
  unfold perform_install, run_cp, write_file, run_systemctl, log, emit, bind.
  rewrite Hown, Hcw. cbv beta iota. cbn [fs clock trace].
  destruct (can_write E service_path); [| now rewrite <- app_assoc].
  cbv beta iota. cbn [fs clock trace].
  destruct (systemctl_found E); cbv beta iota; cbn [fs clock trace raise ret].
  - unfold myne_install_events. now rewrite <- !app_assoc.
  - now rewrite <- !app_assoc.
Qed.

Lemma myne_current_after_copy (s1 : state) (own : string) :
  fs s1 !! script_path E = Some (File own) ->
  fs s1 !! LOCAL_SCRIPT_PATH = Some (File own) ->
  install_self E s1 =
    (Ret false,
     myne_extend s1
       ([calling "install_self"] ++ hashed ++ hashed
          ++ [already_installed; returned "install_self"])).
Proof.
  intros Hs Ht. rewrite myne_install_self_cases.
  rewrite (myne_install_up_to_date E _ own own); cbn [myne_extend fs];
    try assumption; try reflexivity.
  rewrite !extend_extend. reflexivity.
Qed.

(** X7. Self-heal of myne.py: with the target absent or different, and
    every step able to succeed, [install_self] returns [True]; the target
    then holds the bytes of the running script, the service file holds the
    unit text, the service manager was asked to reload, enable and
    restart, in that order; a second run finds nothing to do. *)
Theorem myne_install_then_current (s : state) (own : string) :
  fs s !! script_path E = Some (File own) ->
  myne_outdated E s own ->
  can_write E LOCAL_SCRIPT_PATH = true ->
  can_write E service_path = true ->
  systemctl_found E = true ->
  script_path E <> service_path ->
  exists pre s1,
    (pre = hashed \/ pre = hashed ++ hashed) /\
    install_self E s = (Ret true, s1) /\
    fs s1 = <[service_path := File service_content]>
              (<[LOCAL_SCRIPT_PATH := File own]> (fs s)) /\
    fs s1 !! LOCAL_SCRIPT_PATH = Some (File own) /\
    clock s1 = clock s /\
    trace s1 = trace s ++ [calling "install_self"] ++ pre
                 ++ myne_install_events E ++ [returned "install_self"] /\
    install_self E s1 =
      (Ret false,
       myne_extend s1
         ([calling "install_self"] ++ hashed ++ hashed
            ++ [already_installed; returned "install_self"])).
Proof.
  intros Hown Hout Hct Hcs Hsys Hne.
  pose proof (myne_outdated_paths s own Hown Hout) as Hst.
  rewrite myne_install_self_cases.
  destruct (myne_install_body_outdated
              (myne_extend s [calling "install_self"]) own Hown Hout)
    as [pre [Hpre ->]].
  rewrite (myne_perform_install_cases
             (myne_extend (myne_extend s [calling "install_self"]) pre)
             own Hown Hct).
  cbv zeta.
  rewrite Hcs, Hsys. cbn [myne_extend fs clock trace].
  exists pre. eexists. split; [exact Hpre |]. split; [reflexivity |].
  cbn [fs clock trace].
  assert (Ht : (<[service_path := File service_content]>
                  (<[LOCAL_SCRIPT_PATH := File own]> (fs s)) : gmap string node)
                 !! LOCAL_SCRIPT_PATH = Some (File own)).
  { rewrite lookup_insert_ne by (apply not_eq_sym, local_not_service).
    apply lookup_insert_eq. }
  split; [reflexivity |]. split; [exact Ht |]. split; [reflexivity |].
  split; [cbn [myne_extend trace]; now rewrite <- !app_assoc |].
  apply (myne_current_after_copy _ own); cbn [myne_extend fs]; [| exact Ht].
  rewrite lookup_insert_ne by (apply not_eq_sym; exact Hne).
  rewrite lookup_insert_ne by (apply not_eq_sym; exact Hst).
  exact Hown.
Qed.

(** X8. Once [cp] has succeeded, a later run of myne.py never completes
    the installation: whatever the first run returned, the second finds
    the target current, returns [False] and touches nothing. When the
    service file could not be written the first run returns [False] and
    leaves the service file as it was. *)
Theorem myne_second_run_does_nothing (s : state) (own : string) (b : bool)
    (s1 : state) :
  fs s !! script_path E = Some (File own) ->
  myne_outdated E s own ->
  can_write E LOCAL_SCRIPT_PATH = true ->
  script_path E <> service_path ->
  install_self E s = (Ret b, s1) ->
  install_self E s1 =
    (Ret false,
     myne_extend s1
       ([calling "install_self"] ++ hashed ++ hashed
          ++ [already_installed; returned "install_self"])) /\
  fs s1 !! LOCAL_SCRIPT_PATH = Some (File own) /\
  (can_write E service_path = false ->
   b = false /\ fs s1 !! service_path = fs s !! service_path) /\
  (can_write E service_path = true -> systemctl_found E = false ->
   b = false /\ fs s1 !! service_path = Some (File service_content)).
Proof.
  intros Hown Hout Hct Hne.
  pose proof (myne_outdated_paths s own Hown Hout) as Hst.
  rewrite myne_install_self_cases.
  destruct (myne_install_body_outdated
              (myne_extend s [calling "install_self"]) own Hown Hout)
    as [pre [_ ->]].
  rewrite (myne_perform_install_cases
             (myne_extend (myne_extend s [calling "install_self"]) pre)
             own Hown Hct).
  cbv zeta.
  cbn [myne_extend fs clock trace].
  assert (Ht1 : (<[LOCAL_SCRIPT_PATH := File own]> (fs s) : gmap string node)
                  !! LOCAL_SCRIPT_PATH = Some (File own))
    by apply lookup_insert_eq.
  assert (Hs1 : (<[LOCAL_SCRIPT_PATH := File own]> (fs s) : gmap string node)
                  !! script_path E = Some (File own))
    by (rewrite lookup_insert_ne by (apply not_eq_sym; exact Hst); exact Hown).
  assert (Ht2 : (<[service_path := File service_content]>
                   (<[LOCAL_SCRIPT_PATH := File own]> (fs s))
                 : gmap string node)
                  !! LOCAL_SCRIPT_PATH = Some (File own))
    by (rewrite lookup_insert_ne by (apply not_eq_sym, local_not_service);
        exact Ht1).
  assert (Hs2 : (<[service_path := File service_content]>
                   (<[LOCAL_SCRIPT_PATH := File own]> (fs s))
                 : gmap string node)
                  !! script_path E = Some (File own))
    by (rewrite lookup_insert_ne by (apply not_eq_sym; exact Hne); exact Hs1).
  destruct (can_write E service_path) eqn:Hcs;
    [destruct (systemctl_found E) eqn:Hsys |];
    intros [= <- <-]; cbn [fs clock trace myne_extend].
  - split; [apply (myne_current_after_copy _ own); assumption |].
    split; [exact Ht2 |]. split; discriminate.
  - split; [apply (myne_current_after_copy _ own); assumption |].
    split; [exact Ht2 |]. split; [discriminate |]. intros _ _.
    split; [reflexivity | apply lookup_insert_eq].
  - split; [apply (myne_current_after_copy _ own); assumption |].
    split; [exact Ht1 |]. split; [| discriminate].
    intros _. split; [reflexivity |].
    apply lookup_insert_ne, local_not_service.
Qed.

End MyneInstallerMore.

(* ===================================================================== *)
(** * Further properties: reinstall_self and the command set (myne.py)    *)
(* ===================================================================== *)

Section MyneReinstall.
Import Py Myne.
Variable E : env.

(** [reinstall_self], by what the two commands do. *)
Lemma reinstall_self_cases (restart_ok : bool) (s : state) :
  reinstall_self E restart_ok s =
    match fs s !! HOME_SCRIPT_PATH with
    | Some (File home) =>
        if can_write E LOCAL_SCRIPT_PATH then
          let copied :=
            {| fs := <[LOCAL_SCRIPT_PATH := File home]> (fs s);
               clock := clock s;
               trace := trace s ++
                 [calling "reinstall_self";
                  EvCopy HOME_SCRIPT_PATH LOCAL_SCRIPT_PATH] |} in
          if systemctl_found E then
            if restart_ok
            then (Ret true,
                  myne_extend copied
                    [EvRun ["systemctl"; "restart"; "myne.service"]; returned "reinstall_self"])
            else (Raise CalledProcessError,
                  myne_extend copied
                    [EvRun ["systemctl"; "restart"; "myne.service"]; raised "reinstall_self"])
          else (Raise FileNotFoundError,
                myne_extend copied [raised "reinstall_self"])
        else (Raise CalledProcessError,
              myne_extend s [calling "reinstall_self"; raised "reinstall_self"])
    | _ => (Raise CalledProcessError,
            myne_extend s [calling "reinstall_self"; raised "reinstall_self"])
    end.
Proof.
  unfold reinstall_self. rewrite log_decorator_cases.
  unfold run_cp, run_systemctl_checked, emit, bind.
  cbn [myne_extend fs clock trace].
  destruct (fs s !! HOME_SCRIPT_PATH) as [[home|]|];
    try (cbn [is_Exception]; rewrite ?extend_extend; reflexivity).
  destruct (can_write E LOCAL_SCRIPT_PATH);
    [| cbn [is_Exception]; rewrite ?extend_extend; reflexivity].
  cbv beta iota zeta.
  destruct (systemctl_found E); [destruct restart_ok |];
    cbn; unfold myne_extend; cbn [fs clock trace];
    rewrite <- ?app_assoc; reflexivity.
Qed.

(** X9. [reinstall_self] never returns [False] and catches nothing: it
    returns [True] when the copy and the restart both succeed, and raises
    otherwise. It compares no hashes: whenever the home script can be
    read and the target written, the target is overwritten with the home
    script's bytes, also when it already held them and also when the
    restart then fails. When the copy fails the service manager is not
    called and the file system is as it was. *)
Theorem reinstall_self_outcomes (restart_ok : bool) (s : state) :
  exists r s',
    reinstall_self E restart_ok s = (r, s') /\
    (r = Ret true \/ exists e, r = Raise e /\ is_Exception e = true) /\
    match fs s !! HOME_SCRIPT_PATH with
    | Some (File home) =>
        if can_write E LOCAL_SCRIPT_PATH then
          fs s' = <[LOCAL_SCRIPT_PATH := File home]> (fs s) /\
          r = (if systemctl_found E
               then if restart_ok then Ret true else Raise CalledProcessError
               else Raise FileNotFoundError) /\
          trace s' =
            trace s ++
            [calling "reinstall_self";
             EvCopy HOME_SCRIPT_PATH LOCAL_SCRIPT_PATH] ++
            (if systemctl_found E
             then [EvRun ["systemctl"; "restart"; "myne.service"]] else []) ++
            [if systemctl_found E && restart_ok
             then returned "reinstall_self" else raised "reinstall_self"]
        else
          r = Raise CalledProcessError /\ fs s' = fs s /\
          trace s' = trace s ++
            [calling "reinstall_self"; raised "reinstall_self"]
    | _ =>
        r = Raise CalledProcessError /\ fs s' = fs s /\
        trace s' = trace s ++
          [calling "reinstall_self"; raised "reinstall_self"]
    end.
Proof.
  rewrite reinstall_self_cases.
  destruct (fs s !! HOME_SCRIPT_PATH) as [[home|]|];
    try (eexists _, _; split; [reflexivity |];
         split; [right; eexists; split; reflexivity | repeat split]).
  destruct (can_write E LOCAL_SCRIPT_PATH);
    [| eexists _, _; split; [reflexivity |];
       split; [right; eexists; split; reflexivity | repeat split]].
  cbv zeta.
  destruct (systemctl_found E); [destruct restart_ok |];
    (eexists _, _; split; [reflexivity |]; split;
     [first [now left | right; eexists; split; reflexivity] |];
     cbn [myne_extend fs trace andb]; rewrite <- ?app_assoc; repeat split).
Qed.

End MyneReinstall.

Section PlannerMore.
Import Py Myne.

(** X10. The command set, by core count: from 8 cores on, the main
    command with cores - 2 threads, the limited and the free command; from
    2 to 7 cores, the main command with cores - 1 threads and the limited
    command; below 2 cores (also for 0 or a negative count) the limited
    command alone. The limited command is in every command set. *)
Theorem commands_by_core_count (cpu_cores : Z) :
  (let '(main_threads, limited_threads, free_threads) :=
     calculate_threads_and_limits cpu_cores in
   create_xmrig_commands main_threads limited_threads free_threads) =
    if (cpu_cores >=? 8)%Z
    then [main_command (cpu_cores - 2); limited_command; free_command]
    else if (cpu_cores >=? 2)%Z
         then [main_command (cpu_cores - 1); limited_command]
         else [limited_command].
Proof.
  unfold calculate_threads_and_limits, CPU_LIMIT_THRESHOLD,
    create_xmrig_commands.
  destruct (Z.geb_spec cpu_cores 8) as [H8|H8].
  - destruct (Z.gtb_spec (cpu_cores - 2) 0); [reflexivity | lia].
  - destruct (Z.geb_spec cpu_cores 2) as [H2|H2];
      destruct (Z.gtb_spec (cpu_cores - 1) 0); try lia; reflexivity.
Qed.

End PlannerMore.

(* ===================================================================== *)
(** * Further properties: the supervisor loop of myne.py                  *)
(* ===================================================================== *)

Section SupervisorMore.
Import Py Myne.
Variable E : env.

Lemma running_pgrep_present (k : nat) :
  running_at E k = true -> pgrep_at E k <> PgrepMissing.
Proof.
  unfold running_at, pgrep_code. now destruct (pgrep_at E k).
Qed.

(** One reconcile that finds a worker: a query and a record. *)
Lemma reconcile_idle (commands : list string) (s : state) :
  running_at E (clock s) = true ->
  reconcile E commands s =
    (Ret tt,
     myne_advance s 1
       (liveness_events E (clock s) ++ [EvLog INFO "xmrig is running."])).
Proof.
  intros Hrun. unfold reconcile, bind at 1.
  rewrite check_run by now apply running_pgrep_present.
  rewrite Hrun. cbn [negb].
  now rewrite log_run, extend_is_advance, advance_advance.
Qed.

Lemma supervise_idle (n : nat) (commands : list string) (s : state) :
  (forall k, running_at E k = true) ->
  (forall k, interrupt_at E k = false) ->
  supervise E n commands s =
    (Timeout, myne_advance s (2 * n) (idle_ticks E (clock s) n)).
Proof.
  intros Hrun Hint. revert s. induction n as [|n IH]; intros s.
  - cbn. now rewrite advance_nil.
  - cbn [supervise]. unfold bind at 1.
    rewrite (reconcile_idle commands s (Hrun _)).
    unfold bind at 1. rewrite interruptible_sleep_cases, Hint.
    rewrite advance_advance, IH, advance_advance.
    cbn [myne_advance clock Nat.add idle_ticks].
    f_equal; f_equal; first [lia | rewrite <- !app_assoc; reflexivity].
Qed.

Lemma killed_app (a b : list event) : killed (a ++ b) = killed a ++ killed b.
Proof. unfold killed. apply flat_map_app. Qed.

Lemma idle_ticks_quiet (n k : nat) :
  spawned (idle_ticks E k n) = [] /\
  killed (idle_ticks E k n) = [] /\
  pgrep_queries (idle_ticks E k n) = n.
Proof.
  revert k. induction n as [|n IH]; intros k; [repeat split |].
  destruct (IH (S (S k))) as [Hs [Hk Hq]].
  cbn [idle_ticks].
  rewrite !spawned_app, !killed_app, !pgrep_queries_app, Hs, Hk, Hq.
  repeat split.
Qed.

(** X11. While a worker is observed at every liveness check and no sleep
    is interrupted, the supervisor never spawns and never kills, however
    long it runs: each tick is one query of the process table, one record
    and one sleep of 60 seconds, and the loop does not end. *)
Theorem supervise_never_spawns_while_running
    (n : nat) (commands : list string) (s : state) :
  (forall k, running_at E k = true) ->
  (forall k, interrupt_at E k = false) ->
  exists evs,
    supervise E n commands s = (Timeout, myne_advance s (2 * n) evs) /\
    evs = idle_ticks E (clock s) n /\
    spawned evs = [] /\ killed evs = [] /\ pgrep_queries evs = n.
Proof.
  intros Hrun Hint. exists (idle_ticks E (clock s) n).
  split; [apply supervise_idle; assumption |].
  split; [reflexivity | apply idle_ticks_quiet].
Qed.

(** Killing stops at the first kill command that fails. *)
Lemma kill_each_stops (before after : list string) (pid : string) (s : state) :
  kills_succeed E (clock s) before = true ->
  kill_at E (List.length before + clock s) pid = false ->
  for_each (before ++ pid :: after) (fun pid =>
    run_kill E pid ;>
    log INFO ("Killed xmrig process with PID: " +:+ pid)) s =
  (Raise CalledProcessError,
   myne_advance s (S (List.length before))
     (kill_events before ++ [EvKill pid false])).
Proof.
  revert s. induction before as [|p rest IH]; intros s Hk Hfail.
  - cbn [app for_each List.length Nat.add] in *.
    unfold bind at 1. unfold bind at 1.
    unfold run_kill, tick, emit, bind at 1. unfold bind at 1.
    rewrite Hfail. reflexivity.
  - cbn [kills_succeed] in Hk. apply andb_prop in Hk as [Hp Hrest].
    cbn [app for_each]. unfold bind at 1. unfold bind at 1.
    unfold run_kill, tick, emit, bind at 1. unfold bind at 1.
    rewrite Hp. unfold ret, bind at 1.
    rewrite log_run. unfold myne_extend. cbn [fs clock trace].
    rewrite IH; cbn [clock]; [| exact Hrest |].
    + unfold myne_advance.
      cbn [fs clock trace List.length kill_events flat_map].
      f_equal; f_equal; first [lia | rewrite <- !app_assoc; reflexivity].
    + cbn [List.length] in Hfail.
      now replace (List.length rest + S (clock s))%nat
        with (S (List.length rest) + clock s)%nat by lia.
Qed.

(** X12. Kill-all is not all-or-nothing. When the process table lists
    the pids [before ++ pid :: after], the kills of [before] succeed and
    the kill of [pid] fails, kill-all raises [CalledProcessError]; the
    pids of [before] were killed, and no kill is ever sent to the pids of
    [after]. *)
Theorem kill_xmrig_stops_at_first_failure
    (before after : list string) (pid : string) (s : state) :
  pgrep_code E (clock s) = 0%Z ->
  pgrep_at E (clock s) <> PgrepMissing ->
  words (pgrep_stdout E (clock s)) = before ++ pid :: after ->
  kills_succeed E (S (clock s)) before = true ->
  kill_at E (S (List.length before + clock s)) pid = false ->
  exists evs,
    kill_xmrig E s =
      (Raise CalledProcessError,
       myne_advance s (S (S (List.length before))) evs) /\
    evs = [calling "kill_xmrig"; EvPgrep 0] ++ kill_events before
            ++ [EvKill pid false; raised "kill_xmrig"] /\
    killed evs = before /\
    Forall (fun ev => forall p ok, ev = EvKill p ok -> In p (before ++ [pid]))
      evs.
Proof.
  unfold pgrep_code, pgrep_stdout. intros Hrc Hp Hw Hk Hfail.
  destruct (pgrep_at E (clock s)) as [rc out|] eqn:Hpg; [| contradiction].
  subst rc. eexists. split; [| split; [reflexivity |]].
  - unfold kill_xmrig. rewrite log_decorator_cases.
    unfold run_pgrep, tick, emit, bind at 1. unfold bind at 1.
    cbn [myne_extend clock fs trace]. rewrite Hpg.
    unfold bind at 1. unfold ret at 1. cbn [fst snd Z.eqb]. rewrite Hw.
    rewrite kill_each_stops; cbn [clock]; [| exact Hk |].
    + cbn [is_Exception]. unfold myne_advance, myne_extend.
      cbn [fs clock trace].
      f_equal; f_equal; first [lia | rewrite <- !app_assoc; reflexivity].
    + now replace (List.length before + S (clock s))%nat
        with (S (List.length before + clock s))%nat by lia.
  - split.
    + rewrite !killed_app, killed_kill_events. cbn. now rewrite app_nil_r.
    + apply Forall_app. split; [repeat constructor; discriminate |].
      apply Forall_app. split.
      * clear. induction before as [|p rest IH]; [constructor |].
        cbn. constructor; [intros q ok [= <- _]; now left |].
        constructor; [discriminate |].
        eapply Forall_impl; [exact IH |].
        intros ev Hev q ok Heq. right. exact (Hev q ok Heq).
      * repeat constructor; [| discriminate].
        intros q ok [= <- _]. apply in_or_app. right. now left.
Qed.

(** ** How [main] may end *)











(** ** What is left alone *)

Lemma keeps_fs_log (l : level) (msg : string) : keeps fs (log l msg).
Proof. intros s. reflexivity. Qed.

Lemma keeps_fs_emit (ev : event) : keeps fs (emit ev).
Proof. intros s. reflexivity. Qed.

Lemma keeps_fs_tick : keeps fs tick.
Proof. intros s. reflexivity. Qed.

Lemma keeps_fs_log_decorator {A} (name : string) (func : M state A) :
  keeps fs func -> keeps fs (log_decorator name func).
Proof.
  intros Hf. unfold log_decorator.
  apply keeps_bind; [apply keeps_fs_log | intros _].
  apply keeps_try.
  - apply keeps_bind; [exact Hf | intros r].
    apply keeps_bind; [apply keeps_fs_log | intros _; apply keeps_ret].
  - constructor; [| constructor]. intros e. cbn [snd].
    apply keeps_bind; [apply keeps_fs_log | intros _; apply keeps_raise].
Qed.

Lemma keeps_fs_run_pgrep : keeps fs (run_pgrep E).
Proof.
  unfold run_pgrep. apply keeps_bind; [apply keeps_fs_tick | intros k].
  destruct (pgrep_at E k); [| apply keeps_raise].
  apply keeps_bind; [apply keeps_fs_emit | intros _; apply keeps_ret].
Qed.

Lemma keeps_fs_check : keeps fs (check_xmrig_running E).
Proof.
  unfold check_xmrig_running. apply keeps_fs_log_decorator.
  apply keeps_bind; [apply keeps_fs_run_pgrep | intros r; apply keeps_ret].
Qed.

Lemma keeps_fs_kill_xmrig : keeps fs (kill_xmrig E).
Proof.
  unfold kill_xmrig. apply keeps_fs_log_decorator.
  apply keeps_bind; [apply keeps_fs_run_pgrep | intros r].
  destruct (fst r =? 0)%Z; [| apply keeps_ret].
  apply keeps_for_each. intros pid.
  apply keeps_bind; [| intros _; apply keeps_fs_log].
  unfold run_kill. apply keeps_bind; [apply keeps_fs_tick | intros k].
  apply keeps_bind; [apply keeps_fs_emit | intros _].
  destruct (kill_at E k pid); [apply keeps_ret | apply keeps_raise].
Qed.

Lemma keeps_fs_reconcile (commands : list string) :
  keeps fs (reconcile E commands).
Proof.
  unfold reconcile. apply keeps_bind; [apply keeps_fs_check | intros running].
  destruct running; cbn [negb]; [apply keeps_fs_log |].
  apply keeps_bind; [apply keeps_fs_log | intros _].
  apply keeps_for_each. intros command.
  apply keeps_bind.
  - unfold run_xmrig_command. apply keeps_fs_log_decorator.
    apply keeps_bind; [apply keeps_fs_tick | intros k].
    destruct (popen_at E k); [| apply keeps_raise].
    apply keeps_bind; [apply keeps_fs_emit | intros _; apply keeps_ret].
  - intros _. apply keeps_bind; [apply keeps_fs_log | intros _].
    apply keeps_bind; [apply keeps_fs_check | intros running].
    destruct running; cbn [negb]; [apply keeps_ret | apply keeps_fs_log].
Qed.

Lemma keeps_fs_interruptible_sleep : keeps fs (interruptible_sleep E).
Proof.
  unfold interruptible_sleep. apply keeps_try.
  - unfold asyncio_sleep. apply keeps_bind; [apply keeps_fs_tick | intros k].
    apply keeps_bind; [apply keeps_fs_emit | intros _].
    destruct (interrupt_at E k); [apply keeps_raise | apply keeps_ret].
  - constructor; [| constructor]. intros e. cbn [snd].
    apply keeps_bind; [apply keeps_fs_log | intros _].
    apply keeps_bind; [apply keeps_fs_kill_xmrig | intros _].
    apply keeps_raise.
Qed.

Lemma keeps_fs_supervise (fuel : nat) (commands : list string) :
  keeps fs (supervise E fuel commands).
Proof.
  induction fuel as [|fuel IH]; [apply keeps_timeout |].
  cbn [supervise].
  apply keeps_bind; [apply keeps_fs_reconcile | intros _].
  apply keeps_bind; [apply keeps_fs_interruptible_sleep | intros _; exact IH].
Qed.

(** All the writes of a run of myne.py are the installer's. *)
Lemma myne_main_fs (fuel : nat) (s : state) :
  fs (snd (main E fuel s)) =
  fs (snd (install_self E (myne_extend s [calling "main"]))).
Proof.
  unfold main. rewrite log_decorator_cases.
  set (s0 := myne_extend s [calling "main"]).
  assert (Hbody :
    fs (snd (try_except (main_body E fuel)
               [except_Exception (fun _ => on_error E)] s0)) =
    fs (snd (install_self E s0))).
  { rewrite (keeps_after_try fs).
    - unfold main_body. rewrite (keeps_after_bind fs);
        [| intros commands; apply keeps_fs_supervise].
      unfold prepare. apply (keeps_after_bind fs). intros installed.
      destruct installed.
      + apply keeps_bind; [apply keeps_fs_log | intros _; apply keeps_raise].
      + apply keeps_bind;
          [apply keeps_fs_log_decorator, keeps_ret | intros cpu_cores].
        apply keeps_bind.
        * apply keeps_fs_log_decorator.
          destruct cpu_cores; [apply keeps_ret | apply keeps_raise].
        * intros plan. apply keeps_fs_log_decorator.
          destruct plan as [[m l] f]. apply keeps_ret.
    - constructor; [| constructor]. intros e. cbn [snd]. unfold on_error.
      apply keeps_bind; [apply keeps_fs_log | intros _].
      apply keeps_bind; [apply keeps_fs_kill_xmrig | intros _].
      apply keeps_raise. }
  rewrite <- Hbody.
  destruct (try_except _ _ s0) as [[a|e|] s1]; cbn; try reflexivity.
  destruct (is_Exception e); reflexivity.
Qed.




(** ** Missing tools are fatal *)

Lemma run_pgrep_missing (s : state) :
  pgrep_at E (clock s) = PgrepMissing ->
  run_pgrep E s = (Raise FileNotFoundError, myne_advance s 1 []).
Proof.
  intros Hp. unfold run_pgrep, tick, bind. cbn [clock]. rewrite Hp.
  unfold raise, myne_advance. cbn. now rewrite app_nil_r.
Qed.

Lemma check_missing (s : state) :
  pgrep_at E (clock s) = PgrepMissing ->
  check_xmrig_running E s =
    (Raise FileNotFoundError,
     myne_advance s 1
       [calling "check_xmrig_running"; raised "check_xmrig_running"]).
Proof.
  intros Hp. unfold check_xmrig_running. rewrite log_decorator_cases.
  unfold bind. rewrite run_pgrep_missing by exact Hp.
  cbn [is_Exception].
  now rewrite !extend_is_advance, !advance_advance.
Qed.

Lemma kill_missing (s : state) :
  pgrep_at E (clock s) = PgrepMissing ->
  kill_xmrig E s =
    (Raise FileNotFoundError,
     myne_advance s 1 [calling "kill_xmrig"; raised "kill_xmrig"]).
Proof.
  intros Hp. unfold kill_xmrig. rewrite log_decorator_cases.
  unfold bind. rewrite run_pgrep_missing by exact Hp.
  cbn [is_Exception].
  now rewrite !extend_is_advance, !advance_advance.
Qed.

(** X16. Without [pgrep] the supervisor cannot run: the first liveness
    check raises [FileNotFoundError], the top-level handler's kill-all
    raises it again, and the process ends with that error uncaught, exit
    status 1, without a single spawn, kill or sleep. *)
Theorem myne_main_without_pgrep
    (fuel : nat) (commands : list string) (s s_p : state) :
  prepare E (myne_extend s [calling "main"]) = (Ret commands, s_p) ->
  pgrep_at E (clock s_p) = PgrepMissing ->
  pgrep_at E (S (clock s_p)) = PgrepMissing ->
  main E (S fuel) s =
    (Raise FileNotFoundError,
     myne_advance s_p 2
       [calling "check_xmrig_running"; raised "check_xmrig_running";
        error_in_main;
        calling "kill_xmrig"; raised "kill_xmrig";
        raised "main"]) /\
  exit_status (fst (main E (S fuel) s)) = Some 1%Z.
Proof.
  intros Hprep Hp0 Hp1.
  assert (Hmain : main E (S fuel) s =
    (Raise FileNotFoundError,
     myne_advance s_p 2
       [calling "check_xmrig_running"; raised "check_xmrig_running";
        error_in_main;
        calling "kill_xmrig"; raised "kill_xmrig";
        raised "main"])).
  { rewrite main_cases. unfold main_body, bind at 1. rewrite Hprep.
    cbn [supervise]. unfold bind at 1. unfold reconcile, bind at 1.
    rewrite check_missing by exact Hp0. cbn [is_Exception].
    rewrite extend_is_advance, advance_advance.
    rewrite kill_missing by exact Hp1.
    now rewrite extend_is_advance, !advance_advance. }
  split; [exact Hmain | now rewrite Hmain].
Qed.


End SupervisorMore.

Section GrFrame.
Import Py Gr.
Variable E : env.

Lemma gr_keeps_fs_log (l : level) (msg : string) : keeps fs (log l msg).
Proof. intros s. reflexivity. Qed.

Lemma gr_keeps_fs_sleep (secs : Z) : keeps fs (time_sleep secs).
Proof. intros s. unfold time_sleep. destruct (secs <? 0)%Z; reflexivity. Qed.

Lemma gr_keeps_fs_check (path : string) :
  keeps fs (check_file_modification E path).
Proof.
  intros s. rewrite check_file_modification_cases.
  destruct (mtime_at E path (clock s)) as [t| |]; try reflexivity.
  destruct (now_at E (clock s) - t >? timedelta_hours 36)%Z; reflexivity.
Qed.

Lemma gr_keeps_fs_shutdown : keeps fs (shutdown_system E).
Proof. intros s. now rewrite shutdown_system_run. Qed.

Lemma gr_keeps_fs_watch_loop (fuel : nat) : keeps fs (watch_loop E fuel).
Proof.
  induction fuel as [|fuel IH]; [apply keeps_timeout |].
  cbn [watch_loop].
  apply keeps_bind; [apply gr_keeps_fs_check | intros triggered].
  destruct triggered; [apply gr_keeps_fs_shutdown |].
  apply keeps_bind; [apply gr_keeps_fs_sleep | intros _; exact IH].
Qed.

Lemma gr_keeps_fs_warm_up : keeps fs (warm_up E).
Proof.
  unfold warm_up. apply keeps_bind.
  - intros s. rewrite get_system_uptime_cases.
    destruct (uptime_p E) as [out|]; [destruct (parse_uptime out) |];
      reflexivity.
  - intros [u|]; [| apply keeps_raise].
    destruct (u <? 1800)%Z; [| apply keeps_ret].
    apply keeps_bind; [apply gr_keeps_fs_log | intros _; apply gr_keeps_fs_sleep].
Qed.

(** All the writes of a run of gr.py are the installer's. *)
Lemma gr_main_fs (fuel : nat) (s : state) :
  fs (snd (main E fuel s)) = fs (snd (install_self E s)).
Proof.
  unfold main. rewrite (keeps_after_try fs).
  - apply (keeps_after_bind fs). intros installed.
    destruct installed; [apply gr_keeps_fs_log |].
    apply keeps_bind; [apply gr_keeps_fs_warm_up | intros _].
    apply gr_keeps_fs_watch_loop.
  - constructor; [| constructor]. intros e. apply gr_keeps_fs_log.
Qed.

End GrFrame.

(** X15. Outside [install_self] neither daemon writes a file: whatever
    the host answers and however long the loops run, the file system at
    the end of [main] is the one [install_self] left. *)
Theorem writes_only_in_installer
    (Eg : Gr.env) (Em : Myne.env) (fuel : nat) (sg : Gr.state) (sm : Myne.state) :
  Gr.fs (snd (Gr.main Eg fuel sg)) = Gr.fs (snd (Gr.install_self Eg sg)) /\
  Myne.fs (snd (Myne.main Em fuel sm)) =
    Myne.fs (snd (Myne.install_self Em (myne_extend sm [calling "main"]))).
Proof. split; [apply gr_main_fs | apply myne_main_fs]. Qed.

(* ===================================================================== *)
(** * Whole runs                                                          *)
(* ===================================================================== *)

Section GrWholeRun.
Import Py Gr.
Variable E : env.

Lemma slept_app (a b : list event) : slept (a ++ b) = (slept a + slept b)%Z.
Proof.
  induction a as [|ev a IH]; [reflexivity |].
  cbn [app slept fold_right]. fold (slept (a ++ b)). fold (slept a).
  rewrite IH. destruct ev; lia.
Qed.

Lemma slept_check (k : nat) : slept (check_events E k) = 0%Z.
Proof.
  unfold check_events.
  destruct (mtime_at E sentinel_path k) as [t| |]; try reflexivity.
  destruct (now_at E k - t >? timedelta_hours 36)%Z; reflexivity.
Qed.

Lemma slept_quiet (n k : nat) :
  slept (quiet_ticks E k n) = (420 * Z.of_nat n)%Z.
Proof.
  revert k. induction n as [|n IH]; intros k; [reflexivity |].
  cbn [quiet_ticks]. rewrite !slept_app, slept_check, IH.
  cbn [slept fold_right]. lia.
Qed.

Lemma slept_warm_up (u : Z) : slept (warm_up_events u) = Z.max 0 (1800 - u).
Proof.
  unfold warm_up_events.
  destruct (Z.ltb_spec u 1800); cbn [slept fold_right]; lia.
Qed.

Lemma slept_shutdown :
  slept (shutdown_events E) = if sysrq_ok E then 1%Z else 0%Z.
Proof. unfold shutdown_events. destruct (sysrq_ok E); reflexivity. Qed.

Lemma sysrq_writes_warm_up (u : Z) : sysrq_writes (warm_up_events u) = [].
Proof. unfold warm_up_events. destruct (u <? 1800)%Z; reflexivity. Qed.

Lemma sysrq_writes_shutdown :
  sysrq_writes (shutdown_events E) = if sysrq_ok E then ["o"] else [].
Proof. unfold shutdown_events. destruct (sysrq_ok E); reflexivity. Qed.

(** X18. A whole run of the watchdog. With nothing to install and an
    uptime sample of [u] seconds, a sentinel that is found fresh at the
    first [n] polls and stale at the next makes [main] return after one
    fail-safe: the trace is the warm-up, [n] polls with their sleeps, the
    positive check and the fail-safe, in that order; the sleeps asked for
    add up to the warm-up delay, 420 seconds a poll and the one second of
    the fail-safe; the one thing written to the control interface is the
    power-off command. *)
Theorem gr_main_polls_then_shuts_down
    (n fuel : nat) (s s1 : state) (out : string) (u : Z) :
  install_self E s = (Ret false, s1) ->
  uptime_p E = Some out ->
  parse_uptime out = Some u ->
  let start := if (u <? 1800)%Z then S (clock s1) else clock s1 in
  quiet E start n = true ->
  triggered E (start + n) = true ->
  (n < fuel)%nat ->
  exists s',
    main E fuel s = (Ret tt, s') /\
    fs s' = fs s1 /\
    trace s' = trace s1 ++ warm_up_events u ++ quiet_ticks E start n
                 ++ [EvLog DEBUG "File modification condition met."]
                 ++ shutdown_events E /\
    slept (trace s') =
      (slept (trace s1) + Z.max 0 (1800 - u) + 420 * Z.of_nat n
         + (if sysrq_ok E then 1 else 0))%Z /\
    sysrq_writes (trace s') =
      sysrq_writes (trace s1) ++ (if sysrq_ok E then ["o"] else []).
Proof.
  intros Hinst Hout Hu start Hq Ht Hlt.
  unfold main, try_except. unfold bind at 1. rewrite Hinst.
  unfold bind at 1. rewrite (warm_up_run E out u s1 Hout Hu).
  fold start.
  rewrite (watch_loop_fires E n fuel) by (cbn [clock]; assumption).
  cbn [clock fs trace].
  rewrite (check_events_triggered E _ Ht).
  eexists. split; [reflexivity |]. cbn [fs trace].
  split; [reflexivity |].
  split; [now rewrite <- !app_assoc |].
  split.
  - rewrite !slept_app, slept_warm_up, slept_quiet, slept_shutdown.
    cbn [slept fold_right]. lia.
  - rewrite !sysrq_writes_app, sysrq_writes_warm_up, sysrq_writes_quiet,
      sysrq_writes_shutdown.
    cbn [sysrq_writes flat_map app]. now rewrite app_nil_r.
Qed.

End GrWholeRun.

Section MyneWholeRun.
Import Py Myne.
Variable E : env.

(** X19. The run that installs starts no worker: when [install_self]
    returns [True], [main] logs that it exits and ends by [sys.exit(0)].
    The exit goes through both handlers untouched: no error record, no
    kill-all, no query of the process table, no spawn, no sleep, and the
    exit status is 0. *)
Theorem myne_main_exits_after_install (fuel : nat) (s s1 : state) :
  install_self E (myne_extend s [calling "main"]) = (Ret true, s1) ->
  main E fuel s =
    (Raise (SystemExit 0),
     myne_extend s1
       [EvLog INFO
          "Exiting after installation. Please restart the script manually."]) /\
  exit_status (fst (main E fuel s)) = Some 0%Z.
Proof.
  intros Hinst.
  assert (Hmain : main E fuel s =
    (Raise (SystemExit 0),
     myne_extend s1
       [EvLog INFO
          "Exiting after installation. Please restart the script manually."])).
  { rewrite main_cases. unfold main_body, prepare.
    unfold bind at 1. unfold bind at 1. rewrite Hinst.
    unfold bind at 1. rewrite log_run. reflexivity. }
  split; [exact Hmain |]. rewrite Hmain. reflexivity.
Qed.

End MyneWholeRun.

(* ===================================================================== *)
(** * Worked instances of the further properties                          *)
(* ===================================================================== *)

(** A first run on a host with nothing installed, and the run after it. *)
Lemma gr_install_then_current_witness :
  exists s1,
    Gr.install_self gr_host gr_fresh = (Py.Ret true, s1) /\
    Gr.fs s1 !! Gr.target_path = Some (Py.File sample_code) /\
    fst (Gr.install_self gr_host s1) = Py.Ret false.
Proof.
  destruct (gr_install_then_current gr_host gr_fresh sample_code)
    as [s1 [H1 [_ [H2 [_ [_ H3]]]]]];
    [reflexivity | now left | reflexivity | reflexivity | reflexivity
    | discriminate |].
  exists s1. rewrite H3. repeat split; assumption.
Defined.

(** The service file cannot be written: the first run fails after the
    copy, the second says there is nothing to do. *)
Lemma gr_second_run_does_nothing_witness :
  fst (Gr.install_self gr_host_no_service gr_fresh) = Py.Ret false /\
  fst (Gr.install_self gr_host_no_service
         (snd (Gr.install_self gr_host_no_service gr_fresh))) = Py.Ret false /\
  Gr.fs (snd (Gr.install_self gr_host_no_service gr_fresh))
    !! Gr.service_path = None.
Proof.
  destruct (gr_second_run_does_nothing gr_host_no_service gr_fresh sample_code
              false (snd (Gr.install_self gr_host_no_service gr_fresh)))
    as [H1 [_ [H3 _]]];
    [reflexivity | now left | reflexivity | discriminate
    | vm_compute; reflexivity |].
  split; [vm_compute; reflexivity |].
  split; [now rewrite H1 |].
  destruct (H3 eq_refl) as [_ ->]. reflexivity.
Defined.

Lemma gr_main_without_uptime_witness :
  Gr.main gr_host_no_uptime 7 gr_installed =
    (Py.Ret tt,
     gr_extend gr_installed
       [Gr.EvLog Py.DEBUG "Script already installed and up to date.";
        Gr.EvLog Py.ERROR "Error in getting system uptime";
        Gr.EvLog Py.CRITICAL "Fatal error in main loop"]).
Proof.
  rewrite (gr_main_without_uptime gr_host_no_uptime 7 gr_installed
             (gr_extend gr_installed
                [Gr.EvLog Py.DEBUG "Script already installed and up to date."]));
    [reflexivity | vm_compute; reflexivity | exact I].
Defined.

Lemma gr_main_installs_and_returns_witness :
  exists s',
    Gr.main gr_host 7 gr_fresh = (Py.Ret tt, s') /\
    Gr.fs s' !! Gr.target_path = Some (Py.File sample_code).
Proof.
  destruct (gr_main_installs_and_returns gr_host 7 gr_fresh sample_code)
    as [s' [H1 [_ [_ H2]]]];
    [reflexivity | now left | reflexivity | reflexivity | reflexivity
    | discriminate |].
  exists s'. split; assumption.
Defined.

(** Ten minutes after boot: 600 seconds. *)
Lemma gr_uptime_exact_within_a_day_witness :
  Gr.get_system_uptime gr_host gr_bare = (Py.Ret (Some 600%Z), gr_bare).
Proof.
  destruct (gr_uptime_exact_within_a_day gr_host 0 10 gr_bare eq_refl)
    as [H _].
  exact H.
Defined.

Lemma myne_install_then_current_witness :
  exists s1,
    Myne.install_self myne_host myne_fresh = (Py.Ret true, s1) /\
    Myne.fs s1 !! Myne.LOCAL_SCRIPT_PATH = Some (Py.File sample_code) /\
    fst (Myne.install_self myne_host s1) = Py.Ret false.
Proof.
  destruct (myne_install_then_current myne_host myne_fresh sample_code)
    as [pre [s1 [_ [H1 [_ [H2 [_ [_ H3]]]]]]]];
    [reflexivity | now left | reflexivity | reflexivity | reflexivity
    | discriminate |].
  exists s1. rewrite H3. repeat split; assumption.
Defined.

Lemma myne_second_run_does_nothing_witness :
  fst (Myne.install_self myne_host_no_service myne_fresh) = Py.Ret false /\
  fst (Myne.install_self myne_host_no_service
         (snd (Myne.install_self myne_host_no_service myne_fresh)))
    = Py.Ret false /\
  Myne.fs (snd (Myne.install_self myne_host_no_service myne_fresh))
    !! Myne.service_path = None.
Proof.
  destruct (myne_second_run_does_nothing myne_host_no_service myne_fresh
              sample_code false
              (snd (Myne.install_self myne_host_no_service myne_fresh)))
    as [H1 [_ [H3 _]]];
    [reflexivity | now left | reflexivity | discriminate
    | vm_compute; reflexivity |].
  split; [vm_compute; reflexivity |].
  split; [now rewrite H1 |].
  destruct (H3 eq_refl) as [_ ->]. reflexivity.
Defined.

(** Five ticks with a worker in sight: five queries, nothing else. *)
Lemma supervise_never_spawns_while_running_witness :
  exists s',
    Myne.supervise myne_host_running 5 [Myne.limited_command] myne_bare
      = (Py.Timeout, s') /\
    spawned (Myne.trace s') = [] /\ pgrep_queries (Myne.trace s') = 5%nat.
Proof.
  destruct (supervise_never_spawns_while_running myne_host_running 5
              [Myne.limited_command] myne_bare)
    as [evs [H1 [_ [H2 [_ H3]]]]].
  - intros k. reflexivity.
  - intros k. reflexivity.
  - eexists. split; [exact H1 |]. cbn [Myne.trace myne_advance myne_bare app].
    split; assumption.
Defined.

(** Workers 11, 22 and 33; the kill of 22 fails: 11 is killed, 33 is
    never sent a kill. *)
Lemma kill_xmrig_stops_at_first_failure_witness :
  exists s',
    Myne.kill_xmrig myne_host_three_workers myne_bare
      = (Py.Raise Py.CalledProcessError, s') /\
    killed (Myne.trace s') = ["11"].
Proof.
  destruct (kill_xmrig_stops_at_first_failure myne_host_three_workers
              ["11"] ["33"] "22" myne_bare)
    as [evs [H1 [_ [H2 _]]]];
    [reflexivity | discriminate | reflexivity | reflexivity | reflexivity |].
  eexists. split; [exact H1 |]. cbn [Myne.trace myne_advance myne_bare app].
  exact H2.
Defined.


Lemma myne_main_without_pgrep_witness :
  fst (Myne.main myne_host_no_pgrep 1 myne_installed)
    = Py.Raise Py.FileNotFoundError /\
  Py.exit_status (fst (Myne.main myne_host_no_pgrep 1 myne_installed))
    = Some 1%Z.
Proof.
  destruct (myne_main_without_pgrep myne_host_no_pgrep 0
              [Myne.main_command 3; Myne.limited_command] myne_installed
              (snd (Myne.prepare myne_host_no_pgrep
                      (myne_extend myne_installed [calling "main"]))))
    as [H1 H2];
    [vm_compute; reflexivity | reflexivity | reflexivity |].
  split; [now rewrite H1 | exact H2].
Defined.


(** Ten minutes after boot, the sentinel 36 hours old between the second
    and the third poll: 1200 seconds of warm-up, one quiet poll, then the
    fail-safe. *)
Lemma gr_main_polls_then_shuts_down_witness :
  exists s',
    Gr.main gr_host 3 gr_installed = (Py.Ret tt, s') /\
    slept (Gr.trace s') = 1621%Z /\
    sysrq_writes (Gr.trace s') = ["o"].
Proof.
  destruct (gr_main_polls_then_shuts_down gr_host 1 3 gr_installed
              (gr_extend gr_installed
                 [Gr.EvLog Py.DEBUG "Script already installed and up to date."])
              ("up 10 minutes" +:+ newline) 600)
    as [s' [H1 [_ [_ [H2 H3]]]]];
    [vm_compute; reflexivity | reflexivity | vm_compute; reflexivity
    | reflexivity | reflexivity | lia |].
  exists s'. split; [exact H1 |]. split; [rewrite H2 | rewrite H3]; reflexivity.
Defined.

Lemma myne_main_exits_after_install_witness :
  Py.exit_status (fst (Myne.main myne_host 3 myne_fresh)) = Some 0%Z /\
  spawned (Myne.trace (snd (Myne.main myne_host 3 myne_fresh))) = [] /\
  pgrep_queries (Myne.trace (snd (Myne.main myne_host 3 myne_fresh))) = 0%nat.
Proof.
  destruct (myne_main_exits_after_install myne_host 3 myne_fresh
              (snd (Myne.install_self myne_host
                      (myne_extend myne_fresh [calling "main"]))))
    as [H1 H2]; [vm_compute; reflexivity |].
  split; [exact H2 |]. rewrite H1. split; vm_compute; reflexivity.
Defined.
